(** * sales_agent_SDR.py: the sales agent system

    A shallow embedding of [sales_agent_SDR.py].  The script talks to three
    things outside itself, which are the parameters of the model:

    - the mail provider ([sendgrid]): a post either answers with a status
      code or raises an [Exception]; building the request raises when the
      text of the mail begins like a key of the provider;
    - the language model behind [agents.Runner]: every model call answers
      with a tool call, a handoff, a final output or a provider error.  The
      answer may differ from one call to the next, so the model function
      takes the number of calls made so far;
    - the process environment and the [.env] file.

    Python code that may raise is written in a state and exception monad
    over the [World]; [try: ... except Exception] is [try_except].  Console
    output ([print]) is not modelled. *)

From Stdlib Require Import ZArith List Ascii.
From stdpp Require Import gmap strings list.

Set Warnings "-register-all".

Open Scope string_scope.
Open Scope Z_scope.

(** ** Python values, exceptions and the world *)

Inductive PyVal :=
| PyStr (s : string)
| PyInt (z : Z).

(** A [Dict[str, str]] literal, keys in the order the source writes them. *)
Definition Dict := list (string * PyVal).

(** An instance of [Exception]: its class name and [str(e)]. *)
Record PyException := mkException { exn_class : string; exn_str : string }.

(** [Mail(from_email, to_email, subject, content)] together with the
    [api_key] the client was built with. *)
Record Mail := mkMail {
  api_key : option string;
  from_email : string;
  to_email : string;
  subject : string;
  content_type : string;
  content : string
}.

(** What [sg.client.mail.send.post] does: a response, or an exception. *)
Inductive PostOutcome :=
| Responded (status_code : Z)
| PostRaised (e : PyException).

Record World := mkWorld {
  environ : gmap string string;   (* os.environ *)
  clock : nat;                    (* model calls made so far *)
  posts : list Mail               (* requests posted to the mail provider *)
}.

Inductive Res (A : Type) :=
| Return (a : A)
| Raise (e : PyException).
Arguments Return {A} a.
Arguments Raise {A} e.

Definition M (A : Type) : Type := World -> Res A * World.

Definition ret {A} (a : A) : M A := fun w => (Return a, w).
Definition raise {A} (e : PyException) : M A := fun w => (Raise e, w).
Definition bind {A B} (m : M A) (k : A -> M B) : M B :=
  fun w => match m w with
           | (Return a, w') => k a w'
           | (Raise e, w') => (Raise e, w')
           end.
(** [try: body except Exception as e: handler(e)] *)
Definition try_except {A} (body : M A) (handler : PyException -> M A) : M A :=
  fun w => match body w with
           | (Return a, w') => (Return a, w')
           | (Raise e, w') => handler e w'
           end.

Notation "'let!' x ':=' m 'in' k" := (bind m (fun x => k))
  (at level 10, x name, m at level 100, k at level 200).

(** [os.environ.get(key)] *)
Definition os_environ_get (key : string) : M (option string) :=
  fun w => (Return (environ w !! key), w).

(** Python truth of [os.environ.get(key)]: [None] and the empty string are
    false. *)
Definition truthy (v : option string) : bool :=
  match v with
  | None => false
  | Some s => negb (String.eqb s EmptyString)
  end.

(** [load_dotenv(override=True)]: every pair of the [.env] file replaces the
    variable of the same name. *)
Definition load_dotenv (dotenv : gmap string string) : M unit :=
  fun w => (Return tt,
            mkWorld (dotenv ∪ environ w) (clock w) (posts w)).

(** ** Global configuration *)

Definition FROM_EMAIL := "abdulbasitnedian@outlook.com".
Definition TO_EMAIL := "abdulbasitnedian@gmail.com".
(** The value the script assigns to [TEST_MODE]; the functions below take the
    flag as a parameter. *)
Definition TEST_MODE_in_source := false.

(** ** Agents and tools of the [agents] framework *)

Inductive FunctionId := Fsend_email | Fsend_html_email.

Inductive Agent :=
| mkAgent (name instructions model : string)
          (tools : list Tool) (handoffs : list Agent)
          (handoff_description : option string)
with Tool :=
| FunctionTool (tool_name : string) (fn : FunctionId)
| AgentTool (tool_name tool_description : string) (agent : Agent).

Definition agent_name (a : Agent) : string :=
  match a with mkAgent n _ _ _ _ _ => n end.
Definition agent_tools (a : Agent) : list Tool :=
  match a with mkAgent _ _ _ t _ _ => t end.
Definition agent_handoffs (a : Agent) : list Agent :=
  match a with mkAgent _ _ _ _ h _ => h end.
Definition name_of_tool (t : Tool) : string :=
  match t with FunctionTool n _ => n | AgentTool n _ _ => n end.

(** [agent.as_tool(tool_name=..., tool_description=...)] *)
Definition as_tool (a : Agent) (tool_name tool_description : string) : Tool :=
  AgentTool tool_name tool_description a.

(** What a tool hands back to the model. *)
Inductive ToolOutput :=
| OutText (s : string)
| OutDict (d : Dict).

(** The conversation a model call sees. *)
Inductive Item :=
| InputItem (text : string)
| ToolCallItem (tool_name : string) (args : list string)
| ToolOutputItem (tool_name : string) (out : ToolOutput)
| HandoffItem (target : string).

(** One answer of the model. *)
Inductive ModelResponse :=
| ToolCall (tool_name : string) (args : list string)
| HandoffTo (target : string)
| FinalOutput (text : string)
| ModelError (e : PyException).

Record RunResult := mkRunResult {
  final_output : string;
  last_agent : Agent
}.

Definition LLM := nat -> Agent -> list Item -> ModelResponse.
Definition Provider := nat -> Mail -> PostOutcome.

(** The prompt [select_best_email] formats for the picker:
    ["Cold sales emails:\n\n" + "\n\nEmail:\n\n".join(emails)]. *)
Definition format_email_options (emails : list string) : string :=
  "Cold sales emails:

" +:+ String.concat "

Email:

" emails.

(** ** The request objects of [sendgrid.helpers.mail]

    The client, [Email], [To] and [Mail] take what they are given.
    [Content] checks its text: a text that begins like a key of the
    provider, [SG\.[0-9a-zA-Z]+\.[0-9a-zA-Z]+], is refused with
    [ApiKeyIncludedException], whose [str] is empty. *)

Definition is_alnum (c : ascii) : bool :=
  let n := nat_of_ascii c in
  ((48 <=? n) && (n <=? 57) || (65 <=? n) && (n <=? 90)
   || (97 <=? n) && (n <=? 122))%nat.

Definition starts_alnum (s : string) : bool :=
  match s with
  | String c _ => is_alnum c
  | EmptyString => false
  end.

(** What is left of [s] after its longest prefix of letters and digits. *)
Fixpoint skip_alnum (s : string) : string :=
  match s with
  | String c s' => if is_alnum c then skip_alnum s' else s
  | EmptyString => s
  end.

(** [re.compile(r'SG\.[0-9a-zA-Z]+\.[0-9a-zA-Z]+').match(s) is not None] *)
Definition api_key_shaped (s : string) : bool :=
  match s with
  | String "S"%char (String "G"%char (String "."%char rest)) =>
      starts_alnum rest
      && match skip_alnum rest with
         | String "."%char rest' => starts_alnum rest'
         | _ => false
         end
  | _ => false
  end.

Definition ApiKeyIncludedException : PyException :=
  mkException "ApiKeyIncludedException" EmptyString.

(** [Content(mime_type, content)]: the MIME type and the text, once the
    text has passed the check. *)
Definition Content (mime_type content : string) : M (string * string) :=
  if api_key_shaped content then raise ApiKeyIncludedException
  else ret (mime_type, content).

Section Program.

Context (TEST_MODE : bool) (llm : LLM) (provider : Provider)
        (dotenv : gmap string string).

(** [sg.client.mail.send.post(request_body=mail)]: the request is logged,
    then the provider answers or raises. *)
Definition sg_post (mail : Mail) : M Z :=
  fun w =>
    let w' := mkWorld (environ w) (clock w) (posts w ++ [mail]) in
    match provider (length (posts w)) mail with
    | Responded code => (Return code, w')
    | PostRaised e => (Raise e, w')
    end.

(** ** The standalone tool functions *)

Definition send_email (body : string) : M Dict :=
  if TEST_MODE then
    ret [("status", PyStr "success"); ("status_code", PyInt 202)]
  else
    try_except
      (let! key := os_environ_get "SENDGRID_API_KEY" in
       let! content := Content "text/plain" body in
       let mail := mkMail key FROM_EMAIL TO_EMAIL "Sales Email"
                          (fst content) (snd content) in
       let! status_code := sg_post mail in
       if status_code =? 202 then
         ret [("status", PyStr "success"); ("status_code", PyInt status_code)]
       else
         ret [("status", PyStr "error"); ("status_code", PyInt status_code)])
      (fun e => ret [("status", PyStr "error"); ("message", PyStr (exn_str e))]).

Definition send_html_email (subject html_body : string) : M Dict :=
  if TEST_MODE then
    ret [("status", PyStr "success"); ("status_code", PyInt 202)]
  else
    try_except
      (let! key := os_environ_get "SENDGRID_API_KEY" in
       let! content := Content "text/html" html_body in
       let mail := mkMail key FROM_EMAIL TO_EMAIL subject
                          (fst content) (snd content) in
       let! status_code := sg_post mail in
       if status_code =? 202 then
         ret [("status", PyStr "success"); ("status_code", PyInt status_code)]
       else
         ret [("status", PyStr "error"); ("status_code", PyInt status_code)])
      (fun e => ret [("status", PyStr "error"); ("message", PyStr (exn_str e))]).

(** ** The runner of the [agents] framework

    The framework is imported by the script, not part of it; this is the
    run loop the script relies on.  [Runner.run(agent, input)] asks the
    model what to do, runs the tool or the handoff the model names, and asks
    again, until the model gives a final output or the turn budget is used
    up.  Only a tool registered on the running agent, or an agent among its
    handoffs, can be reached. *)

Definition DEFAULT_MAX_TURNS : nat := 10.

Definition MaxTurnsExceeded : PyException :=
  mkException "MaxTurnsExceeded" "Max turns (10) exceeded".
Definition ModelBehaviorError (what : string) : PyException :=
  mkException "ModelBehaviorError" what.
Definition RecursionError : PyException :=
  mkException "RecursionError" "maximum recursion depth exceeded".

(** What a tool call that failed reports back to the model.  The wording is
    the framework's default and differs between its versions. *)
Definition tool_error_text (e : PyException) : string :=
  "An error occurred while running the tool. Please try again. Error: "
  +:+ exn_str e.

Definition find_tool (name : string) (ts : list Tool) : option Tool :=
  List.find (fun t => String.eqb (name_of_tool t) name) ts.
Definition find_handoff (target : string) (hs : list Agent) : option Agent :=
  List.find (fun a => String.eqb (agent_name a) target) hs.

Definition call_model (agent : Agent) (items : list Item) : M ModelResponse :=
  fun w => (Return (llm (clock w) agent items),
            mkWorld (environ w) (S (clock w)) (posts w)).

(** A [@function_tool] called with the arguments the model chose. *)
Definition call_function (fn : FunctionId) (args : list string) : M ToolOutput :=
  match fn, args with
  | Fsend_email, [body] =>
      let! d := send_email body in ret (OutDict d)
  | Fsend_html_email, [subject; html_body] =>
      let! d := send_html_email subject html_body in ret (OutDict d)
  | _, _ =>
      ret (OutText (tool_error_text (ModelBehaviorError "Invalid JSON input for tool")))
  end.

(** What the tool made by [agent.as_tool] does: it runs the agent on the
    input and hands back the text of its final output; a failure of that run
    is reported to the calling model as text. *)
Definition as_tool_invoke (run : Agent -> string -> M RunResult)
    (a : Agent) (input : string) : M ToolOutput :=
  try_except
    (let! r := run a input in ret (OutText (final_output r)))
    (fun e => ret (OutText (tool_error_text e))).

Definition invoke_tool (run_agent_tool : Agent -> string -> M ToolOutput)
    (tool : Tool) (args : list string) : M ToolOutput :=
  match tool, args with
  | FunctionTool _ fn, _ => call_function fn args
  | AgentTool _ _ a, [input] => run_agent_tool a input
  | AgentTool _ _ _, _ =>
      ret (OutText (tool_error_text (ModelBehaviorError "Invalid JSON input for tool")))
  end.

(** The turns of one run. *)
Fixpoint run_turns (run_agent_tool : Agent -> string -> M ToolOutput)
    (turns_left : nat) (agent : Agent) (items : list Item) : M RunResult :=
  match turns_left with
  | O => raise MaxTurnsExceeded
  | S n =>
      let! response := call_model agent items in
      match response with
      | FinalOutput text => ret (mkRunResult text agent)
      | ModelError e => raise e
      | HandoffTo target =>
          match find_handoff target (agent_handoffs agent) with
          | Some next_agent =>
              run_turns run_agent_tool n next_agent (items ++ [HandoffItem target])
          | None => raise (ModelBehaviorError ("Handoff " +:+ target +:+ " not found"))
          end
      | ToolCall name args =>
          match find_tool name (agent_tools agent) with
          | None =>
              raise (ModelBehaviorError
                       ("Tool " +:+ name +:+ " not found in agent "
                        +:+ agent_name agent))
          | Some tool =>
              let! out := invoke_tool run_agent_tool tool args in
              run_turns run_agent_tool n agent
                        (items ++ [ToolCallItem name args; ToolOutputItem name out])
          end
      end
  end.

(** A run started from inside a tool gets a turn budget of its own; [depth]
    bounds how many such runs may nest. *)
Fixpoint Runner_run_depth (depth : nat) (starting_agent : Agent) (input : string)
    : M RunResult :=
  run_turns
    (match depth with
     | O => fun _ _ => ret (OutText (tool_error_text RecursionError))
     | S d => as_tool_invoke (Runner_run_depth d)
     end)
    DEFAULT_MAX_TURNS starting_agent [InputItem input].

(** The agents this script wraps as tools have no tools themselves, so one
    level of nesting is all a run can use (see [Runner_run_depth_flat]). *)
Definition Runner_run : Agent -> string -> M RunResult := Runner_run_depth 1.

(** ** [asyncio.gather]

    [asyncio.gather( *coros )] starts every branch at once, in the order of
    its arguments, and a branch makes its model calls when it is started:
    [start_all] runs the branches in that order and keeps what each will
    hand back.  The caller sees a branch only when the branch finishes.
    [gather_after outcomes events slots] is what the caller has once the
    branches named by [events] have finished, in that order: [None] while
    it is still suspended, the list of results in the order of the arguments
    once every slot is filled, and the first exception as soon as a branch
    that raised finishes.  An event naming a branch that does not exist or
    has already finished changes nothing. *)

Fixpoint start_all {A} (coros : list (M A)) (w : World) : list (Res A) * World :=
  match coros with
  | [] => ([], w)
  | coro :: rest =>
      let '(r, w1) := coro w in
      let '(rs, w2) := start_all rest w1 in
      (r :: rs, w2)
  end.

Definition all_filled {A} (slots : list (option A)) : option (list A) :=
  mapM id slots.

Fixpoint gather_after {A} (outcomes : list (Res A)) (events : list nat)
    (slots : list (option A)) : option (Res (list A)) :=
  match all_filled slots with
  | Some results => Some (Return results)
  | None =>
      match events with
      | [] => None
      | i :: events' =>
          match outcomes !! i, slots !! i with
          | Some (Return r), Some None =>
              gather_after outcomes events' (<[i := Some r]> slots)
          | Some (Raise e), Some None => Some (Raise e)
          | _, _ => gather_after outcomes events' slots
          end
      end
  end.

(** [await asyncio.gather( *coros )] under the completion order [schedule].
    The event loop runs every branch to its end, so the branches [schedule]
    leaves out finish after it, in the order of their index; the gather has
    then handed back a result ([asyncio_gather_result]), and the last case
    below does not arise. *)
Definition asyncio_gather {A} (schedule : list nat) (coros : list (M A))
    : M (list A) :=
  fun w =>
    let '(outcomes, w') := start_all coros w in
    match gather_after outcomes (schedule ++ seq 0 (length coros))
                       (replicate (length coros) None) with
    | Some res => (res, w')
    | None =>
        (Raise (mkException "RuntimeError" "gather never finished"), w')
    end.

(** ** [class SalesAgentSystem] *)

Definition professional_instructions :=
  "You are a sales agent working for ComplAI, 
        a company that provides a SaaS tool for ensuring SOC2 compliance and preparing for audits, powered by AI. 
        You write professional, serious cold emails.".
Definition engaging_instructions :=
  "You are a humorous, engaging sales agent working for ComplAI, 
        a company that provides a SaaS tool for ensuring SOC2 compliance and preparing for audits, powered by AI. 
        You write witty, engaging cold emails that are likely to get a response.".
Definition concise_instructions :=
  "You are a busy sales agent working for ComplAI, 
        a company that provides a SaaS tool for ensuring SOC2 compliance and preparing for audits, powered by AI. 
        You write concise, to the point cold emails.".
Definition description := "Write a cold sales email".
Definition sales_manager_instructions :=
  "
        You are a Sales Manager at ComplAI. Your goal is to find the single best cold sales email using the sales_agent tools.
         
        Follow these steps carefully:
        1. Generate Drafts: Use all three sales_agent tools to generate three different email drafts. Do not proceed until all three drafts are ready.
         
        2. Evaluate and Select: Review the drafts and choose the single best email using your judgment of which one is most effective.
        You can use the tools multiple times if you're not satisfied with the results from the first try.
         
        3. Handoff for Sending: Pass ONLY the winning email draft to the 'Email Manager' agent. The Email Manager will take care of formatting and sending.
         
        Crucial Rules:
        - You must use the sales agent tools to generate the drafts – do not write them yourself.
        - You must hand off exactly ONE email to the Email Manager – never more than one.
        ".

Record SalesAgentSystem := mkSalesAgentSystem {
  sales_agent1 : Agent;
  sales_agent2 : Agent;
  sales_agent3 : Agent;
  sales_picker : Agent;
  subject_writer : Agent;
  html_converter : Agent;
  tool1 : Tool;
  tool2 : Tool;
  tool3 : Tool;
  subject_tool : Tool;
  html_tool : Tool;
  emailer_agent : Agent;
  sales_manager : Agent
}.

(** The agents [_setup_agents] creates. *)
Definition the_sales_agent1 : Agent :=
  mkAgent "Professional Sales Agent" professional_instructions "gpt-4o-mini" [] [] None.
Definition the_sales_agent2 : Agent :=
  mkAgent "Engaging Sales Agent" engaging_instructions "gpt-4o-mini" [] [] None.
Definition the_sales_agent3 : Agent :=
  mkAgent "Concise Sales Agent" concise_instructions "gpt-4o-mini" [] [] None.
Definition the_sales_picker : Agent :=
  mkAgent "Sales Picker"
    "You pick the best cold sales email from the given options. 
            Imagine you are a customer and pick the one you are most likely to respond to. 
            Do not give an explanation; reply with the selected email only."
    "gpt-4o-mini" [] [] None.
Definition the_subject_writer : Agent :=
  mkAgent "Email Subject Writer"
    "You can write a subject for a cold sales email. 
            You are given a message and you need to write a subject for an email that is likely to get a response."
    "gpt-4o-mini" [] [] None.
Definition the_html_converter : Agent :=
  mkAgent "HTML Email Body Converter"
    "You can convert a text email body to an HTML email body. 
            You are given a text email body which might have some markdown 
            and you need to convert it to an HTML email body with simple, clear, compelling layout and design."
    "gpt-4o-mini" [] [] None.

(** The tools and agents [_setup_tools] creates. *)
Definition the_tool1 : Tool := as_tool the_sales_agent1 "sales_agent1" description.
Definition the_tool2 : Tool := as_tool the_sales_agent2 "sales_agent2" description.
Definition the_tool3 : Tool := as_tool the_sales_agent3 "sales_agent3" description.
Definition the_subject_tool : Tool :=
  as_tool the_subject_writer "subject_writer" "Write a subject for a cold sales email".
Definition the_html_tool : Tool :=
  as_tool the_html_converter "html_converter"
          "Convert a text email body to an HTML email body".
Definition the_emailer_agent : Agent :=
  mkAgent "Email Manager"
    "You are an email formatter and sender. You receive the body of an email to be sent. 
            You first use the subject_writer tool to write a subject for the email, 
            then use the html_converter tool to convert the body to HTML. 
            Finally, you use the send_html_email tool to send the email with the subject and HTML body."
    "gpt-4o-mini"
    [the_subject_tool; the_html_tool; FunctionTool "send_html_email" Fsend_html_email]
    []
    (Some "Convert an email to HTML and send it").
Definition the_sales_manager : Agent :=
  mkAgent "Sales Manager" sales_manager_instructions "gpt-4o-mini"
    [the_tool1; the_tool2; the_tool3]
    [the_emailer_agent]
    None.

(** The object [__init__] leaves behind once [_setup_agents] and
    [_setup_tools] have run. *)
Definition system : SalesAgentSystem :=
  mkSalesAgentSystem
    the_sales_agent1 the_sales_agent2 the_sales_agent3
    the_sales_picker the_subject_writer the_html_converter
    the_tool1 the_tool2 the_tool3 the_subject_tool the_html_tool
    the_emailer_agent the_sales_manager.

Definition ValueError (msg : string) : PyException := mkException "ValueError" msg.

Definition __init__ : M SalesAgentSystem :=
  let! _ := load_dotenv dotenv in
  let! openai_key := os_environ_get "OPENAI_API_KEY" in
  if negb (truthy openai_key) then
    raise (ValueError "❌ OPENAI_API_KEY environment variable is required")
  else
    let! sendgrid_key := os_environ_get "SENDGRID_API_KEY" in
    if negb TEST_MODE && negb (truthy sendgrid_key) then
      raise (ValueError
               "❌ SENDGRID_API_KEY environment variable is required for real email sending")
    else
      ret system.

Definition send_test_email (self : SalesAgentSystem) : M bool :=
  if TEST_MODE then ret true
  else
    try_except
      (let! key := os_environ_get "SENDGRID_API_KEY" in
       let! content := Content "text/plain"
                         "This is a test email from the AI Sales Agent System" in
       let mail := mkMail key FROM_EMAIL TO_EMAIL "Test Email - AI Sales Agent"
                          (fst content) (snd content) in
       let! status_code := sg_post mail in
       if status_code =? 202 then ret true else ret false)
      (fun e => ret false).

Definition generate_parallel_emails (schedule : list nat)
    (self : SalesAgentSystem) (message : string) : M (list string) :=
  let! results :=
    asyncio_gather schedule
      [Runner_run (sales_agent1 self) message;
       Runner_run (sales_agent2 self) message;
       Runner_run (sales_agent3 self) message] in
  let outputs := map final_output results in
  ret outputs.

Definition select_best_email (self : SalesAgentSystem) (emails : list string)
    : M string :=
  let email_options := format_email_options emails in
  let! best := Runner_run (sales_picker self) email_options in
  ret (final_output best).

Definition run_basic_workflow (schedule : list nat) (self : SalesAgentSystem)
    (message : string) : M string :=
  let! emails := generate_parallel_emails schedule self message in
  let! best_email := select_best_email self emails in
  ret best_email.

Definition run_automated_sdr (self : SalesAgentSystem) (message : string)
    : M RunResult :=
  let! result := Runner_run (sales_manager self) message in
  ret result.

(** [main()]: every exception ends the demonstration; none leaves [main]. *)
Definition main (schedule : list nat) : M unit :=
  try_except
    (let! sales_system := __init__ in
     let! tested := (if negb TEST_MODE then send_test_email sales_system
                     else ret true) in
     if negb tested then ret tt
     else
       let! _ := run_basic_workflow schedule sales_system
                   "Write a cold sales email to a tech startup CEO about SOC2 compliance" in
       let! _ := run_automated_sdr sales_system
                   "Send out a professional cold sales email addressed to 'Dear Startup Founder' from Alice at ComplAI" in
       ret tt)
    (fun e => ret tt).

End Program.

(** ** Vocabulary of the statements *)

(** [d[key]], or [None] when the key is missing. *)
Definition dict_get (d : Dict) (key : string) : option PyVal :=
  snd <$> List.find (fun kv => String.eqb (fst kv) key) d.

Definition success_dict (code : Z) : Dict :=
  [("status", PyStr "success"); ("status_code", PyInt code)].
Definition error_code_dict (code : Z) : Dict :=
  [("status", PyStr "error"); ("status_code", PyInt code)].
Definition error_message_dict (msg : string) : Dict :=
  [("status", PyStr "error"); ("message", PyStr msg)].

(** The requests the two send tools build in the world [w]. *)
Definition plain_mail (w : World) (body : string) : Mail :=
  mkMail (environ w !! "SENDGRID_API_KEY") FROM_EMAIL TO_EMAIL
         "Sales Email" "text/plain" body.
Definition html_mail (w : World) (subject html_body : string) : Mail :=
  mkMail (environ w !! "SENDGRID_API_KEY") FROM_EMAIL TO_EMAIL
         subject "text/html" html_body.

(** The world after one more request reached the provider, and after one
    more model call. *)
Definition posted (w : World) (mail : Mail) : World :=
  mkWorld (environ w) (clock w) (posts w ++ [mail]).
Definition tick (w : World) : World :=
  mkWorld (environ w) (S (clock w)) (posts w).

(** How a send tool reads the provider's answer. *)
Definition interpret (o : PostOutcome) : Dict :=
  match o with
  | Responded code => if code =? 202 then success_dict code else error_code_dict code
  | PostRaised e => error_message_dict (exn_str e)
  end.

(** What one call of a send tool made of its input: [refused] says whether
    [Content] refused the text, [answer] is what the provider makes of the
    request [mail], [d] is the dictionary returned and [w'] the world
    left. *)
Definition send_explained (TEST_MODE refused : bool) (answer : PostOutcome)
    (mail : Mail) (w : World) (d : Dict) (w' : World) : Prop :=
  (TEST_MODE = true -> d = success_dict 202 /\ w' = w)
  /\ (TEST_MODE = false -> refused = true ->
        d = error_message_dict (exn_str ApiKeyIncludedException) /\ w' = w)
  /\ (TEST_MODE = false -> refused = false -> w' = posted w mail)
  /\ (TEST_MODE = false -> refused = false ->
        answer = Responded 202 -> d = success_dict 202)
  /\ (TEST_MODE = false -> refused = false ->
        forall code, answer = Responded code -> code <> 202 ->
        d = error_code_dict code)
  /\ (TEST_MODE = false -> refused = false ->
        forall e, answer = PostRaised e -> d = error_message_dict (exn_str e))
  /\ (dict_get d "status" = Some (PyStr "success")
      <-> TEST_MODE = true \/ (refused = false /\ answer = Responded 202)).

Definition is_html_mail (m : Mail) : Prop := content_type m = "text/html".

(** The credentials [__init__] asks for. *)
Definition required_keys (TEST_MODE : bool) : list string :=
  "OPENAI_API_KEY" :: (if TEST_MODE then [] else ["SENDGRID_API_KEY"]).

(** A model whose answer does not depend on how many calls came before. *)
Definition deterministic_model (llm : LLM) : Prop :=
  forall n m a items, llm n a items = llm m a items.

(** What one model call makes of an agent that has neither tools nor
    handoffs. *)
Definition leaf_answer (a : Agent) (response : ModelResponse) : Res RunResult :=
  match response with
  | FinalOutput text => Return (mkRunResult text a)
  | ModelError e => Raise e
  | HandoffTo target =>
      Raise (ModelBehaviorError ("Handoff " +:+ target +:+ " not found"))
  | ToolCall name _ =>
      Raise (ModelBehaviorError
               ("Tool " +:+ name +:+ " not found in agent " +:+ agent_name a))
  end.

Definition is_leaf (a : Agent) : Prop :=
  agent_tools a = [] /\ agent_handoffs a = [].

(** The text an agent wrapped as a tool hands back for a run that ended
    with [r]. *)
Definition tool_text (r : Res RunResult) : string :=
  match r with
  | Return result => final_output result
  | Raise e => tool_error_text e
  end.

(** From [w] to [w'] the environment is kept and nothing is posted. *)
Definition no_posts (w w' : World) : Prop :=
  environ w' = environ w /\ posts w' = posts w.

(** From [w] to [w'] the environment is kept, and what is posted is HTML
    mail only, and nothing at all in test mode. *)
Definition only_html_posts (TEST_MODE : bool) (w w' : World) : Prop :=
  environ w' = environ w
  /\ exists new, posts w' = (posts w ++ new)%list
               /\ Forall is_html_mail new
               /\ (TEST_MODE = true -> new = []).

(** The slots of a gather in progress: one per branch, and a filled slot
    holds what the branch at its index returned. *)
Definition slots_agree {A} (outcomes : list (Res A)) (slots : list (option A))
    : Prop :=
  length slots = length outcomes
  /\ forall i r, slots !! i = Some (Some r) -> outcomes !! i = Some (Return r).

Definition res_map {A B} (f : A -> B) (r : Res A) : Res B :=
  match r with Return a => Return (f a) | Raise e => Raise e end.

(** The request [send_test_email] builds in the world [w]. *)
Definition test_mail (w : World) : Mail :=
  mkMail (environ w !! "SENDGRID_API_KEY") FROM_EMAIL TO_EMAIL
         "Test Email - AI Sales Agent" "text/plain"
         "This is a test email from the AI Sales Agent System".

(** A mail from [FROM_EMAIL] to [TO_EMAIL] sent with the key [key]. *)
Definition is_addressed (key : option string) (m : Mail) : Prop :=
  from_email m = FROM_EMAIL /\ to_email m = TO_EMAIL /\ api_key m = key.

(** From [w] to [w'] the environment is kept, and every mail posted goes
    from [FROM_EMAIL] to [TO_EMAIL] with the key of the environment. *)
Definition only_addressed_posts (w w' : World) : Prop :=
  environ w' = environ w
  /\ exists new, posts w' = (posts w ++ new)%list
               /\ Forall (is_addressed (environ w !! "SENDGRID_API_KEY")) new.

(** The world after [n] more model calls and nothing else. *)
Definition advance (n : nat) (w : World) : World :=
  mkWorld (environ w) (n + clock w) (posts w).

(** What the three generator runs started in the world [w] come to: the
    run of the generator at index [i] is the model call number
    [i + clock w]. *)
Definition generator_outcomes (llm : LLM) (message : string) (w : World)
    : list (Res RunResult) :=
  [leaf_answer the_sales_agent1
     (llm (0 + clock w)%nat the_sales_agent1 [InputItem message]);
   leaf_answer the_sales_agent2
     (llm (1 + clock w)%nat the_sales_agent2 [InputItem message]);
   leaf_answer the_sales_agent3
     (llm (2 + clock w)%nat the_sales_agent3 [InputItem message])].

(** The separator [select_best_email] joins the candidates with. *)
Definition email_separator : string := "

Email:

".

(** The provider accepted the request. *)
Definition answered_202 (o : PostOutcome) : bool :=
  match o with
  | Responded code => code =? 202
  | PostRaised _ => false
  end.

(** Both checks of [__init__] pass on the configuration [config]. *)
Definition config_complete (TEST_MODE : bool) (config : gmap string string) : bool :=
  truthy (config !! "OPENAI_API_KEY")
  && (TEST_MODE || truthy (config !! "SENDGRID_API_KEY")).

(** Steps 2 and 3 of [main]: the basic workflow, then the automated one. *)
Definition demonstrations (TEST_MODE : bool) (llm : LLM) (provider : Provider)
    (schedule : list nat) (self : SalesAgentSystem) : M unit :=
  let! _ := run_basic_workflow TEST_MODE llm provider schedule self
              "Write a cold sales email to a tech startup CEO about SOC2 compliance" in
  let! _ := run_automated_sdr TEST_MODE llm provider self
              "Send out a professional cold sales email addressed to 'Dear Startup Founder' from Alice at ComplAI" in
  ret tt.

(** ** Scenarios

    Concrete worlds, providers and models the statements are tried on. *)

Definition ready_world : World :=
  mkWorld {[ "OPENAI_API_KEY" := "sk-test"; "SENDGRID_API_KEY" := "SG.test" ]} 0 [].
Definition accepting_provider : Provider := fun _ _ => Responded 202.
Definition rejecting_provider : Provider := fun _ _ => Responded 500.

(** A model that answers every call with the same text. *)
Definition blending_model : LLM :=
  fun _ _ _ => FinalOutput "A blend of both drafts".

(** A model whose answer changes from one call to the next. *)
Definition varying_model : LLM :=
  fun n _ _ => FinalOutput (if Nat.even n then "Quick question" else "SOC2, solved").

(** The manager hands off at once; the Email Manager calls the send tool
    twice and then reports. *)
Definition resending_model : LLM :=
  fun n _ _ =>
    match n with
    | 0%nat => HandoffTo "Email Manager"
    | 1%nat | 2%nat => ToolCall "send_html_email" ["Subject"; "<p>Hello</p>"]
    | _ => FinalOutput "Email sent."
    end.

(** The Email Manager calls the send tool, calls it again, and reports a
    success. *)
Definition retrying_model : LLM :=
  fun n _ _ =>
    match n with
    | 0%nat | 1%nat => ToolCall "send_html_email" ["Subject"; "<p>Hello</p>"]
    | _ => FinalOutput "The email was sent."
    end.

(** A model that signs every answer with the name of the agent asked. *)
Definition naming_model : LLM :=
  fun _ a _ => FinalOutput ("Draft by " +:+ agent_name a).

(** A model that follows the instructions of the script: three drafts, one
    handoff, then subject, HTML and one send. *)
Definition obedient_model : LLM :=
  fun n _ _ =>
    match n with
    | 0%nat => ToolCall "sales_agent1" ["Write a cold sales email"]
    | 1%nat => FinalOutput "Draft one"
    | 2%nat => ToolCall "sales_agent2" ["Write a cold sales email"]
    | 3%nat => FinalOutput "Draft two"
    | 4%nat => ToolCall "sales_agent3" ["Write a cold sales email"]
    | 5%nat => FinalOutput "Draft three"
    | 6%nat => HandoffTo "Email Manager"
    | 7%nat => ToolCall "subject_writer" ["Draft two"]
    | 8%nat => FinalOutput "A quick question"
    | 9%nat => ToolCall "html_converter" ["Draft two"]
    | 10%nat => FinalOutput "<p>Draft two</p>"
    | 11%nat => ToolCall "send_html_email" ["A quick question"; "<p>Draft two</p>"]
    | _ => FinalOutput "The email has been sent."
    end.

(** A model that never hands off: the manager answers with a draft. *)
Definition keeping_model : LLM :=
  fun _ _ _ => FinalOutput "Here is the best draft.".

(** ** The send tools *)

Example api_key_shaped_yes : api_key_shaped "SG.abc.def" = true.
Proof. reflexivity. Qed.

Example api_key_shaped_later : api_key_shaped "Hello SG.abc.def" = false.
Proof. reflexivity. Qed.

Example api_key_shaped_short : api_key_shaped "SG.abc." = false.
Proof. reflexivity. Qed.

Example api_key_shaped_html : api_key_shaped "<p>Hello</p>" = false.
Proof. reflexivity. Qed.

Lemma Content_checked (mime_type text : string) (w : World) :
  Content mime_type text w
  = if api_key_shaped text then (Raise ApiKeyIncludedException, w)
    else (Return (mime_type, text), w).
Proof. unfold Content. destruct (api_key_shaped text); reflexivity. Qed.

Lemma send_email_live (provider : Provider) (body : string) (w : World) :
  send_email false provider body w =
  if api_key_shaped body then
    (Return (error_message_dict (exn_str ApiKeyIncludedException)), w)
  else
    (Return (interpret (provider (length (posts w)) (plain_mail w body))),
     posted w (plain_mail w body)).
Proof.
  unfold send_email, try_except, bind, os_environ_get.
  rewrite Content_checked.
  destruct (api_key_shaped body); [reflexivity|].
  unfold sg_post; simpl. fold (plain_mail w body).
  destruct (provider (length (posts w)) (plain_mail w body)) as [code|e]; simpl.
  - unfold ret. destruct (code =? 202); reflexivity.
  - reflexivity.
Qed.

Lemma send_html_email_live (provider : Provider) (subject html_body : string)
    (w : World) :
  send_html_email false provider subject html_body w =
  if api_key_shaped html_body then
    (Return (error_message_dict (exn_str ApiKeyIncludedException)), w)
  else
    (Return (interpret (provider (length (posts w)) (html_mail w subject html_body))),
     posted w (html_mail w subject html_body)).
Proof.
  unfold send_html_email, try_except, bind, os_environ_get.
  rewrite Content_checked.
  destruct (api_key_shaped html_body); [reflexivity|].
  unfold sg_post; simpl. fold (html_mail w subject html_body).
  destruct (provider (length (posts w)) (html_mail w subject html_body))
    as [code|e]; simpl.
  - unfold ret. destruct (code =? 202); reflexivity.
  - reflexivity.
Qed.

Lemma send_email_test (provider : Provider) (body : string) (w : World) :
  send_email true provider body w = (Return (success_dict 202), w).
Proof. reflexivity. Qed.

Lemma send_html_email_test (provider : Provider) (subject html_body : string)
    (w : World) :
  send_html_email true provider subject html_body w = (Return (success_dict 202), w).
Proof. reflexivity. Qed.

Lemma interpret_status (o : PostOutcome) :
  (dict_get (interpret o) "status" = Some (PyStr "success") <-> o = Responded 202)
  /\ (forall code, o = Responded code -> code <> 202 ->
        interpret o = error_code_dict code)
  /\ (forall e, o = PostRaised e -> interpret o = error_message_dict (exn_str e)).
Proof.
  split; [|split].
  - destruct o as [code|e]; simpl.
    + destruct (Z.eqb_spec code 202) as [->|Hne]; simpl.
      * split; reflexivity.
      * split; [discriminate | intros [=]; contradiction].
    + split; discriminate.
  - intros code -> Hne. simpl.
    destruct (Z.eqb_spec code 202); [contradiction | reflexivity].
  - intros e ->. reflexivity.
Qed.

Lemma interpret_shape (o : PostOutcome) :
  (exists code, interpret o = success_dict code)
  \/ (exists code, interpret o = error_code_dict code)
  \/ (exists msg, interpret o = error_message_dict msg).
Proof.
  destruct o as [code|e]; simpl.
  - destruct (code =? 202); eauto.
  - eauto.
Qed.

(** What one call of a send tool does, by cases. *)
Lemma send_explained_live (refused : bool) (answer : PostOutcome) (mail : Mail)
    (w : World) :
  send_explained false refused answer mail w
    (if refused then error_message_dict (exn_str ApiKeyIncludedException)
     else interpret answer)
    (if refused then w else posted w mail).
Proof.
  unfold send_explained. destruct refused.
  - repeat split; try discriminate.
    intros [H|[H _]]; discriminate H.
  - destruct (interpret_status answer) as (Hiff & Hcode & Hexn).
    repeat split; try discriminate.
    + intros _ _ ->. reflexivity.
    + intros _ _. exact Hcode.
    + intros _ _. exact Hexn.
    + intros H. right. split; [reflexivity | apply Hiff, H].
    + intros [H|[_ H]]; [discriminate H | apply Hiff, H].
Qed.

Lemma send_explained_test (refused : bool) (answer : PostOutcome) (mail : Mail)
    (w : World) :
  send_explained true refused answer mail w (success_dict 202) w.
Proof.
  unfold send_explained. repeat split; try discriminate. intros _. left. reflexivity.
Qed.

(** C6 (as amended).  Every send returns a dictionary whose status is
    success or error, with a status code or a message beside it.  In test
    mode the status is success with code 202 and the provider is not
    asked.  Otherwise, a text that [Content] refuses gives an error with the
    message of that exception and nothing is posted; a request that is
    posted gives success exactly when the provider answered 202, an error
    with the code for another code, and an error with the message for an
    exception of the provider. *)
Theorem send_result_interprets_provider
    (TEST_MODE : bool) (provider : Provider)
    (subject html_body body : string) (w : World) :
  (exists d w',
      send_html_email TEST_MODE provider subject html_body w = (Return d, w')
      /\ ((exists code, d = success_dict code)
          \/ (exists code, d = error_code_dict code)
          \/ (exists msg, d = error_message_dict msg))
      /\ send_explained TEST_MODE (api_key_shaped html_body)
           (provider (length (posts w)) (html_mail w subject html_body))
           (html_mail w subject html_body) w d w')
  /\ (exists d w',
      send_email TEST_MODE provider body w = (Return d, w')
      /\ ((exists code, d = success_dict code)
          \/ (exists code, d = error_code_dict code)
          \/ (exists msg, d = error_message_dict msg))
      /\ send_explained TEST_MODE (api_key_shaped body)
           (provider (length (posts w)) (plain_mail w body))
           (plain_mail w body) w d w').
Proof.
  split.
  - destruct TEST_MODE.
    + rewrite send_html_email_test. do 2 eexists. split; [reflexivity|].
      split; [eauto|]. apply send_explained_test.
    + rewrite send_html_email_live.
      pose proof (send_explained_live (api_key_shaped html_body)
                    (provider (length (posts w)) (html_mail w subject html_body))
                    (html_mail w subject html_body) w) as H.
      destruct (api_key_shaped html_body); do 2 eexists;
        (split; [reflexivity|]); (split; [|exact H]).
      * eauto.
      * apply interpret_shape.
  - destruct TEST_MODE.
    + rewrite send_email_test. do 2 eexists. split; [reflexivity|].
      split; [eauto|]. apply send_explained_test.
    + rewrite send_email_live.
      pose proof (send_explained_live (api_key_shaped body)
                    (provider (length (posts w)) (plain_mail w body))
                    (plain_mail w body) w) as H.
      destruct (api_key_shaped body); do 2 eexists;
        (split; [reflexivity|]); (split; [|exact H]).
      * eauto.
      * apply interpret_shape.
Qed.

(** C9.  Whatever the flag, the provider and the input, both send tools
    return a dictionary with a status and raise nothing.  Every exception
    raised inside the [try] comes back as status error with the exception's
    message: the one [Content] raises on a text it refuses, before anything
    is posted, and the one the provider raises on the request. *)
Theorem send_tools_never_raise
    (TEST_MODE : bool) (provider : Provider)
    (subject html_body body : string) (w : World) :
  (exists d w' status,
      send_email TEST_MODE provider body w = (Return d, w')
      /\ dict_get d "status" = Some (PyStr status)
      /\ (TEST_MODE = false -> api_key_shaped body = true ->
            d = [("status", PyStr "error");
                 ("message", PyStr (exn_str ApiKeyIncludedException))]
            /\ w' = w)
      /\ (forall e, TEST_MODE = false -> api_key_shaped body = false ->
            provider (length (posts w)) (plain_mail w body) = PostRaised e ->
            d = [("status", PyStr "error"); ("message", PyStr (exn_str e))]))
  /\ (exists d w' status,
      send_html_email TEST_MODE provider subject html_body w = (Return d, w')
      /\ dict_get d "status" = Some (PyStr status)
      /\ (TEST_MODE = false -> api_key_shaped html_body = true ->
            d = [("status", PyStr "error");
                 ("message", PyStr (exn_str ApiKeyIncludedException))]
            /\ w' = w)
      /\ (forall e, TEST_MODE = false -> api_key_shaped html_body = false ->
            provider (length (posts w)) (html_mail w subject html_body) = PostRaised e ->
            d = [("status", PyStr "error"); ("message", PyStr (exn_str e))])).
Proof.
  split.
  - destruct TEST_MODE.
    + rewrite send_email_test. exists (success_dict 202), w, "success".
      repeat split; discriminate.
    + rewrite send_email_live. destruct (api_key_shaped body).
      * do 2 eexists. exists "error". repeat split; discriminate.
      * destruct (provider (length (posts w)) (plain_mail w body)) as [code|e] eqn:Hp.
        -- simpl. destruct (code =? 202).
           ++ do 2 eexists. exists "success". repeat split; discriminate.
           ++ do 2 eexists. exists "error". repeat split; discriminate.
        -- do 2 eexists. exists "error". repeat split; try discriminate.
           intros e' _ _ [= ->]. reflexivity.
  - destruct TEST_MODE.
    + rewrite send_html_email_test. exists (success_dict 202), w, "success".
      repeat split; discriminate.
    + rewrite send_html_email_live. destruct (api_key_shaped html_body).
      * do 2 eexists. exists "error". repeat split; discriminate.
      * destruct (provider (length (posts w)) (html_mail w subject html_body))
          as [code|e] eqn:Hp.
        -- simpl. destruct (code =? 202).
           ++ do 2 eexists. exists "success". repeat split; discriminate.
           ++ do 2 eexists. exists "error". repeat split; discriminate.
        -- do 2 eexists. exists "error". repeat split; try discriminate.
           intros e' _ _ [= ->]. reflexivity.
Qed.

(** C10.  With [TEST_MODE] true both send tools return
    [{"status": "success", "status_code": 202}] for every input and leave
    the world as it was: nothing is posted to the provider. *)
Theorem test_mode_sends_nothing
    (provider : Provider) (subject html_body body : string) (w : World) :
  send_email true provider body w
    = (Return [("status", PyStr "success"); ("status_code", PyInt 202)], w)
  /\ send_html_email true provider subject html_body w
    = (Return [("status", PyStr "success"); ("status_code", PyInt 202)], w).
Proof. split; reflexivity. Qed.

(** ** Construction of the system *)

Lemma init_result (TEST_MODE : bool) (dotenv : gmap string string) (w : World) :
  let config := dotenv ∪ environ w in
  let loaded := mkWorld config (clock w) (posts w) in
  __init__ TEST_MODE dotenv w =
  if negb (truthy (config !! "OPENAI_API_KEY")) then
    (Raise (ValueError "❌ OPENAI_API_KEY environment variable is required"), loaded)
  else if negb TEST_MODE && negb (truthy (config !! "SENDGRID_API_KEY")) then
    (Raise (ValueError
       "❌ SENDGRID_API_KEY environment variable is required for real email sending"),
     loaded)
  else (Return system, loaded).
Proof.
  unfold __init__, bind, load_dotenv, os_environ_get; simpl.
  destruct (truthy ((dotenv ∪ environ w) !! "OPENAI_API_KEY")); simpl;
    [|reflexivity].
  destruct (negb TEST_MODE && negb (truthy ((dotenv ∪ environ w) !! "SENDGRID_API_KEY")));
    reflexivity.
Qed.

(** C7.  When a credential [__init__] asks for is missing from the
    configuration (the environment overridden by the [.env] file),
    construction raises [ValueError], which [main] reports as the
    configuration error, and [main] ends without a model call or a post.
    When every such credential is set to a non-empty value, construction
    returns the system. *)
Theorem init_checks_configuration
    (TEST_MODE : bool) (llm : LLM) (provider : Provider)
    (dotenv : gmap string string) (schedule : list nat) (w : World) :
  let config := dotenv ∪ environ w in
  let loaded := mkWorld config (clock w) (posts w) in
  ((exists key, In key (required_keys TEST_MODE) /\ config !! key = None) ->
     (exists msg, __init__ TEST_MODE dotenv w = (Raise (ValueError msg), loaded))
     /\ main TEST_MODE llm provider dotenv schedule w = (Return tt, loaded))
  /\ ((forall key, In key (required_keys TEST_MODE) ->
         truthy (config !! key) = true) ->
      __init__ TEST_MODE dotenv w = (Return system, loaded)).
Proof.
  intros config loaded. split.
  - intros (key & Hin & Hnone).
    assert (Hinit : exists msg,
               __init__ TEST_MODE dotenv w = (Raise (ValueError msg), loaded)).
    { rewrite init_result. fold config loaded.
      destruct (truthy (config !! "OPENAI_API_KEY")) eqn:Ho; simpl; [|eauto].
      destruct TEST_MODE; simpl in *.
      - destruct Hin as [<-|[]]. rewrite Hnone in Ho. discriminate.
      - destruct Hin as [<-|[<-|[]]].
        + rewrite Hnone in Ho. discriminate.
        + rewrite Hnone. simpl. eauto. }
    split; [exact Hinit|].
    destruct Hinit as [msg Hinit].
    unfold main, try_except, bind. rewrite Hinit. reflexivity.
  - intros Hall. rewrite init_result. fold config loaded.
    rewrite (Hall "OPENAI_API_KEY") by (left; reflexivity). simpl.
    destruct TEST_MODE; simpl; [reflexivity|].
    rewrite (Hall "SENDGRID_API_KEY") by (right; left; reflexivity).
    reflexivity.
Qed.

(** C5 (as amended).  When a call of [send_html_email] returns an error
    status, that error is the result of at most one request and no retry:
    either [Content] refused the text, nothing was posted and the message
    is that exception's; or exactly one request was posted, and the provider
    answered it with another code than 202, which is returned, or raised,
    and the message of its exception is returned.  Nothing else in the
    world changes. *)
Theorem send_error_is_returned_without_retry
    (TEST_MODE : bool) (provider : Provider) (subject html_body : string)
    (w w' : World) (d : Dict) :
  send_html_email TEST_MODE provider subject html_body w = (Return d, w') ->
  dict_get d "status" = Some (PyStr "error") ->
  let mail := html_mail w subject html_body in
  let answer := provider (length (posts w)) mail in
  TEST_MODE = false
  /\ ((api_key_shaped html_body = true
       /\ w' = w
       /\ d = [("status", PyStr "error");
               ("message", PyStr (exn_str ApiKeyIncludedException))])
      \/ (api_key_shaped html_body = false
          /\ w' = mkWorld (environ w) (clock w) (posts w ++ [mail])
          /\ ((exists code, answer = Responded code /\ code <> 202
                            /\ d = [("status", PyStr "error");
                                    ("status_code", PyInt code)])
              \/ (exists e, answer = PostRaised e
                            /\ d = [("status", PyStr "error");
                                    ("message", PyStr (exn_str e))])))).
Proof.
  intros Hrun Hstatus mail answer. destruct TEST_MODE.
  - rewrite send_html_email_test in Hrun. injection Hrun as <- _.
    discriminate Hstatus.
  - split; [reflexivity|]. rewrite send_html_email_live in Hrun.
    destruct (api_key_shaped html_body).
    + left. injection Hrun as <- <-. repeat split.
    + right. injection Hrun as <- <-. subst answer mail.
      split; [reflexivity|]. split; [reflexivity|].
      destruct (provider (length (posts w)) (html_mail w subject html_body))
        as [code|e]; simpl in *.
      * destruct (Z.eqb_spec code 202) as [Heq|Hne].
        -- discriminate Hstatus.
        -- left. exists code. repeat split. exact Hne.
      * right. exists e. split; reflexivity.
Qed.

(** ** The runner *)

Section RunnerFacts.

Context (TEST_MODE : bool) (llm : LLM) (provider : Provider).

Lemma run_turns_leaf rat n (a : Agent) (items : list Item) (w : World) :
  is_leaf a ->
  run_turns TEST_MODE llm provider rat (S n) a items w
  = (leaf_answer a (llm (clock w) a items), tick w).
Proof.
  intros [Ht Hh]. simpl. unfold bind, call_model.
  destruct (llm (clock w) a items) as [name args|target|text|e]; simpl.
  - rewrite Ht. reflexivity.
  - rewrite Hh. reflexivity.
  - reflexivity.
  - reflexivity.
Qed.

Lemma Runner_run_depth_leaf depth (a : Agent) (input : string) (w : World) :
  is_leaf a ->
  Runner_run_depth TEST_MODE llm provider depth a input w
  = (leaf_answer a (llm (clock w) a [InputItem input]), tick w).
Proof.
  intros Hleaf. destruct depth; apply run_turns_leaf; assumption.
Qed.

Lemma as_tool_invoke_leaf depth (a : Agent) (input : string) (w : World) :
  is_leaf a ->
  as_tool_invoke (Runner_run_depth TEST_MODE llm provider depth) a input w
  = (Return (OutText (tool_text (leaf_answer a (llm (clock w) a [InputItem input])))),
     tick w).
Proof.
  intros Hleaf. unfold as_tool_invoke, try_except, bind.
  rewrite Runner_run_depth_leaf by assumption.
  destruct (leaf_answer a (llm (clock w) a [InputItem input])); reflexivity.
Qed.

(** An invariant of the world that every model call keeps, and every tool
    call the model can make from a [good] agent keeps, holds across a whole
    run started from a [good] agent. *)
Lemma run_turns_invariant (P : World -> World -> Prop) (good : Agent -> Prop) rat :
  (forall w, P w w) ->
  (forall w1 w2 w3, P w1 w2 -> P w2 w3 -> P w1 w3) ->
  (forall w, P w (tick w)) ->
  (forall a n items target next,
      good a -> llm n a items = HandoffTo target ->
      find_handoff target (agent_handoffs a) = Some next -> good next) ->
  (forall a n items name args tool w,
      good a -> llm n a items = ToolCall name args ->
      find_tool name (agent_tools a) = Some tool ->
      P w (snd (invoke_tool TEST_MODE provider rat tool args w))) ->
  forall n a items w,
    good a -> P w (snd (run_turns TEST_MODE llm provider rat n a items w)).
Proof.
  intros Hrefl Htrans Htick Hhand Htool.
  induction n as [|n IH]; intros a items w Hgood; simpl.
  - apply Hrefl.
  - unfold bind, call_model. fold (tick w).
    destruct (llm (clock w) a items) as [name args|target|text|e] eqn:Hllm; simpl.
    + destruct (find_tool name (agent_tools a)) as [tool|] eqn:Hfind; simpl;
        [|apply Htick].
      pose proof (Htool a _ items name args tool (tick w) Hgood Hllm Hfind) as Hstep.
      destruct (invoke_tool TEST_MODE provider rat tool args (tick w))
        as [[out|e] w1]; simpl in *.
      * eapply Htrans; [apply Htick|]. eapply Htrans; [exact Hstep|].
        apply IH. assumption.
      * eapply Htrans; [apply Htick|exact Hstep].
    + destruct (find_handoff target (agent_handoffs a)) as [next|] eqn:Hfind; simpl;
        [|apply Htick].
      eapply Htrans; [apply Htick|]. apply IH. eauto.
    + apply Htick.
    + apply Htick.
Qed.

Lemma no_posts_refl w : no_posts w w.
Proof. split; reflexivity. Qed.

Lemma no_posts_trans w1 w2 w3 : no_posts w1 w2 -> no_posts w2 w3 -> no_posts w1 w3.
Proof. intros [? ?] [? ?]. split; congruence. Qed.

Lemma no_posts_tick w : no_posts w (tick w).
Proof. split; reflexivity. Qed.

Lemma no_posts_only_html (mode : bool) w w' :
  no_posts w w' -> only_html_posts mode w w'.
Proof.
  intros [He Hp]. split; [exact He|]. exists []. rewrite app_nil_r. auto.
Qed.

Lemma only_html_posts_trans w1 w2 w3 :
  only_html_posts TEST_MODE w1 w2 -> only_html_posts TEST_MODE w2 w3 ->
  only_html_posts TEST_MODE w1 w3.
Proof.
  intros (He1 & new1 & Hp1 & Hf1 & Ht1) (He2 & new2 & Hp2 & Hf2 & Ht2).
  split; [congruence|]. exists (new1 ++ new2)%list. repeat split.
  - rewrite Hp2, Hp1, app_assoc. reflexivity.
  - apply Forall_app. split; assumption.
  - intros Ht. rewrite Ht1, Ht2 by assumption. reflexivity.
Qed.

Lemma send_html_email_only_html subject html_body w :
  only_html_posts TEST_MODE w
    (snd (send_html_email TEST_MODE provider subject html_body w)).
Proof.
  destruct TEST_MODE.
  - rewrite send_html_email_test. apply no_posts_only_html, no_posts_refl.
  - rewrite send_html_email_live.
    destruct (api_key_shaped html_body);
      [apply no_posts_only_html, no_posts_refl|].
    split; [reflexivity|].
    exists [html_mail w subject html_body]. repeat split.
    + repeat constructor.
    + discriminate.
Qed.

(** A tool that wraps an agent without tools costs one model call at most
    and posts nothing. *)
Lemma invoke_leaf_tool_no_posts depth tool_name tool_description a args w :
  is_leaf a ->
  no_posts w
    (snd (invoke_tool TEST_MODE provider
            (as_tool_invoke (Runner_run_depth TEST_MODE llm provider depth))
            (AgentTool tool_name tool_description a) args w)).
Proof.
  intros Hleaf. destruct args as [|input [|]]; simpl.
  - apply no_posts_refl.
  - rewrite as_tool_invoke_leaf by assumption. apply no_posts_tick.
  - apply no_posts_refl.
Qed.

Lemma invoke_send_html_tool_only_html rat tool_name args w :
  only_html_posts TEST_MODE w
    (snd (invoke_tool TEST_MODE provider rat
            (FunctionTool tool_name Fsend_html_email) args w)).
Proof.
  destruct args as [|subject [|html_body [|]]]; simpl;
    try (apply no_posts_only_html, no_posts_refl).
  unfold bind.
  pose proof (send_html_email_only_html subject html_body w) as H.
  destruct (send_html_email TEST_MODE provider subject html_body w) as [[d|e] w'];
    exact H.
Qed.

Lemma manager_tools_leaf tool :
  In tool (agent_tools the_sales_manager) ->
  exists tool_name tool_description a,
    tool = AgentTool tool_name tool_description a /\ is_leaf a.
Proof.
  simpl. intros [<- | [<- | [<- | []]]]; do 3 eexists; split; try reflexivity;
    split; reflexivity.
Qed.

Lemma emailer_tools tool :
  In tool (agent_tools the_emailer_agent) ->
  (exists tool_name tool_description a,
      tool = AgentTool tool_name tool_description a /\ is_leaf a)
  \/ tool = FunctionTool "send_html_email" Fsend_html_email.
Proof.
  simpl. intros [<- | [<- | [<- | []]]]; [left|left|right; reflexivity];
    do 3 eexists; split; try reflexivity; split; reflexivity.
Qed.

Lemma find_tool_In name ts tool : find_tool name ts = Some tool -> In tool ts.
Proof. intros H. apply find_some in H. tauto. Qed.

Lemma find_handoff_manager target next :
  find_handoff target (agent_handoffs the_sales_manager) = Some next ->
  target = "Email Manager" /\ next = the_emailer_agent.
Proof.
  unfold find_handoff, the_sales_manager, agent_handoffs, find.
  change (agent_name the_emailer_agent) with "Email Manager".
  destruct (String.eqb_spec "Email Manager" target) as [<-|Hne]; [|discriminate].
  intros [= <-]. split; reflexivity.
Qed.

(** A run started from the manager or from the Email Manager posts HTML
    mail only, and nothing in test mode. *)
Lemma system_run_only_html depth n a items w :
  a = the_sales_manager \/ a = the_emailer_agent ->
  only_html_posts TEST_MODE w
    (snd (run_turns TEST_MODE llm provider
            (as_tool_invoke (Runner_run_depth TEST_MODE llm provider depth))
            n a items w)).
Proof.
  apply (run_turns_invariant (only_html_posts TEST_MODE)
           (fun a => a = the_sales_manager \/ a = the_emailer_agent)).
  - intros w0. apply no_posts_only_html, no_posts_refl.
  - apply only_html_posts_trans.
  - intros w0. apply no_posts_only_html, no_posts_tick.
  - intros a0 k its target next [-> | ->] _ Hfind.
    + apply find_handoff_manager in Hfind. right. tauto.
    + discriminate.
  - intros a0 k its name args tool w0 [-> | ->] _ Hfind; apply find_tool_In in Hfind.
    + apply manager_tools_leaf in Hfind as (tn & td & leaf & -> & Hleaf).
      apply no_posts_only_html, invoke_leaf_tool_no_posts, Hleaf.
    + apply emailer_tools in Hfind as [(tn & td & leaf & -> & Hleaf)| ->].
      * apply no_posts_only_html, invoke_leaf_tool_no_posts, Hleaf.
      * apply invoke_send_html_tool_only_html.
Qed.

(** While the model does not hand the manager's run off to the Email
    Manager, the run posts nothing. *)
Lemma manager_run_without_handoff depth n items w :
  (forall k its, llm k the_sales_manager its <> HandoffTo "Email Manager") ->
  no_posts w
    (snd (run_turns TEST_MODE llm provider
            (as_tool_invoke (Runner_run_depth TEST_MODE llm provider depth))
            n the_sales_manager items w)).
Proof.
  intros Hnever.
  apply (run_turns_invariant no_posts (fun a => a = the_sales_manager));
    [apply no_posts_refl | apply no_posts_trans | apply no_posts_tick | | | reflexivity].
  - intros a0 k its target next -> Hllm Hfind.
    apply find_handoff_manager in Hfind as [-> _].
    exfalso. exact (Hnever _ _ Hllm).
  - intros a0 k its name args tool w0 -> _ Hfind. apply find_tool_In in Hfind.
    apply manager_tools_leaf in Hfind as (tn & td & leaf & -> & Hleaf).
    apply invoke_leaf_tool_no_posts, Hleaf.
Qed.

(** Two ways of running agent tools that agree on every tool call the
    model can make give the same run. *)
Lemma run_turns_ext (good : Agent -> Prop) rat1 rat2 :
  (forall a target next,
      good a -> find_handoff target (agent_handoffs a) = Some next -> good next) ->
  (forall a name tool args w,
      good a -> find_tool name (agent_tools a) = Some tool ->
      invoke_tool TEST_MODE provider rat1 tool args w
      = invoke_tool TEST_MODE provider rat2 tool args w) ->
  forall n a items w,
    good a ->
    run_turns TEST_MODE llm provider rat1 n a items w
    = run_turns TEST_MODE llm provider rat2 n a items w.
Proof.
  intros Hhand Htool.
  induction n as [|n IH]; intros a items w Hgood; simpl; [reflexivity|].
  unfold bind, call_model.
  destruct (llm (clock w) a items) as [name args|target|text|e]; simpl;
    try reflexivity.
  - destruct (find_tool name (agent_tools a)) as [tool|] eqn:Hfind; [|reflexivity].
    rewrite (Htool a name tool args _ Hgood Hfind).
    destruct (invoke_tool TEST_MODE provider rat2 tool args _) as [[out|e] w1];
      [|reflexivity].
    apply IH. exact Hgood.
  - destruct (find_handoff target (agent_handoffs a)) as [next|] eqn:Hfind;
      [|reflexivity].
    apply IH. eauto.
Qed.

(** The agents of the script use one level of nesting: a larger [depth]
    changes no run of theirs. *)
Lemma Runner_run_depth_flat depth (a : Agent) (input : string) (w : World) :
  a = the_sales_manager \/ a = the_emailer_agent \/ is_leaf a ->
  Runner_run_depth TEST_MODE llm provider (S depth) a input w
  = Runner_run TEST_MODE llm provider a input w.
Proof.
  intros Hcase. unfold Runner_run.
  assert (Hsys : a = the_sales_manager \/ a = the_emailer_agent \/ is_leaf a)
    by exact Hcase.
  destruct Hcase as [Ha|[Ha|Hleaf]];
    [| | rewrite !Runner_run_depth_leaf by exact Hleaf; reflexivity].
  all: change (run_turns TEST_MODE llm provider
                 (as_tool_invoke (Runner_run_depth TEST_MODE llm provider depth))
                 DEFAULT_MAX_TURNS a [InputItem input] w
               = run_turns TEST_MODE llm provider
                   (as_tool_invoke (Runner_run_depth TEST_MODE llm provider 0))
                   DEFAULT_MAX_TURNS a [InputItem input] w);
    apply (run_turns_ext
             (fun a => a = the_sales_manager \/ a = the_emailer_agent)
             (as_tool_invoke (Runner_run_depth TEST_MODE llm provider depth))
             (as_tool_invoke (Runner_run_depth TEST_MODE llm provider 0)));
    [ | | tauto].
  all: try (intros a0 target next [-> | ->] Hfind;
            [apply find_handoff_manager in Hfind; tauto | discriminate]).
  all: intros a0 name tool args w0 Hgood Hfind; apply find_tool_In in Hfind;
    assert (Htool : (exists tn td leaf, tool = AgentTool tn td leaf /\ is_leaf leaf)
                    \/ tool = FunctionTool "send_html_email" Fsend_html_email)
      by (destruct Hgood as [-> | ->];
          [left; apply manager_tools_leaf | apply emailer_tools]; exact Hfind);
    destruct Htool as [(tn & td & leaf & -> & Hleaf) | ->]; [|reflexivity];
    destruct args as [|arg [|]]; unfold invoke_tool; try reflexivity;
    rewrite !as_tool_invoke_leaf by exact Hleaf; reflexivity.
Qed.

End RunnerFacts.

(** ** The selector *)

Lemma select_best_email_result
    (TEST_MODE : bool) (llm : LLM) (provider : Provider)
    (emails : list string) (w : World) :
  select_best_email TEST_MODE llm provider system emails w
  = (res_map final_output
       (leaf_answer the_sales_picker
          (llm (clock w) the_sales_picker [InputItem (format_email_options emails)])),
     tick w).
Proof.
  unfold select_best_email, bind, Runner_run. simpl sales_picker.
  rewrite Runner_run_depth_leaf by (split; reflexivity).
  destruct (leaf_answer the_sales_picker
              (llm (clock w) the_sales_picker [InputItem (format_email_options emails)]));
    reflexivity.
Qed.

(** C2 (as amended).  The selector returns, unchanged, the final output the
    model gives the picker for the prompt made of the candidates, after one
    model call, and raises when that run raises.  It returns a text only
    when that text is the model's answer; the candidates are not consulted
    again. *)
Theorem selector_returns_picker_output
    (TEST_MODE : bool) (llm : LLM) (provider : Provider)
    (emails : list string) (w : World) :
  let answer :=
    llm (clock w) (sales_picker system) [InputItem (format_email_options emails)] in
  select_best_email TEST_MODE llm provider system emails w
    = (res_map final_output (leaf_answer (sales_picker system) answer), tick w)
  /\ (forall text, answer = FinalOutput text ->
        select_best_email TEST_MODE llm provider system emails w
          = (Return text, tick w))
  /\ (forall out w',
        select_best_email TEST_MODE llm provider system emails w = (Return out, w') ->
        answer = FinalOutput out).
Proof.
  intros answer. rewrite select_best_email_result. subst answer.
  change (sales_picker system) with the_sales_picker.
  repeat split.
  - intros text H. rewrite H. reflexivity.
  - intros out w'.
    destruct (llm (clock w) the_sales_picker [InputItem (format_email_options emails)]);
      simpl; intros [= <-]; reflexivity.
Qed.

(** C3 (as amended).  On the empty sequence the selector raises nothing of
    its own: the prompt is the bare heading, the picker is run on it, and
    its final output is returned. *)
Theorem selector_on_empty_runs_picker
    (TEST_MODE : bool) (llm : LLM) (provider : Provider) (w : World) :
  let heading := "Cold sales emails:

" in
  format_email_options [] = heading
  /\ select_best_email TEST_MODE llm provider system [] w
     = (res_map final_output
          (leaf_answer (sales_picker system)
             (llm (clock w) (sales_picker system) [InputItem heading])),
        tick w)
  /\ (forall text,
        llm (clock w) (sales_picker system) [InputItem heading] = FinalOutput text ->
        select_best_email TEST_MODE llm provider system [] w = (Return text, tick w)).
Proof.
  intros heading. split; [reflexivity|].
  rewrite select_best_email_result.
  change (format_email_options []) with heading.
  change (sales_picker system) with the_sales_picker.
  split; [reflexivity|]. intros text H. rewrite H. reflexivity.
Qed.

(** ** The orchestrator and the formatter chain *)

(** C4 (as amended).  [run_automated_sdr] is one run of the manager and
    nothing more.  Whatever the model does, the run posts HTML mail only,
    and nothing in test mode; and as long as the model does not hand the run
    off to the Email Manager it posts nothing. *)
Theorem orchestrator_posts
    (TEST_MODE : bool) (llm : LLM) (provider : Provider)
    (message : string) (w : World) :
  let out := run_automated_sdr TEST_MODE llm provider system message w in
  out = Runner_run TEST_MODE llm provider (sales_manager system) message w
  /\ only_html_posts TEST_MODE w (snd out)
  /\ ((forall n items, llm n (sales_manager system) items <> HandoffTo "Email Manager") ->
      no_posts w (snd out)).
Proof.
  intros out.
  assert (Hout : out = Runner_run TEST_MODE llm provider (sales_manager system) message w).
  { unfold out, run_automated_sdr, bind, ret.
    destruct (Runner_run TEST_MODE llm provider (sales_manager system) message w)
      as [[r|e] w']; reflexivity. }
  split; [exact Hout|]. rewrite Hout. split.
  - apply system_run_only_html. left. reflexivity.
  - intros Hnever. apply manager_run_without_handoff. exact Hnever.
Qed.

(** C8 (as amended).  Each of the two formatting steps is one run of a
    model-backed agent on the body: it hands back the text of the model's
    answer, costs one model call, and posts nothing.  Two invocations on the
    same body agree when the model's answers do not depend on the calls made
    before. *)
Theorem formatter_steps_are_model_calls
    (TEST_MODE : bool) (llm : LLM) (provider : Provider)
    (depth : nat) (body : string) (w : World) :
  let rat := as_tool_invoke (Runner_run_depth TEST_MODE llm provider depth) in
  let step tool := invoke_tool TEST_MODE provider rat tool [body] in
  step (subject_tool system) w
    = (Return (OutText (tool_text (leaf_answer (subject_writer system)
                 (llm (clock w) (subject_writer system) [InputItem body])))),
       tick w)
  /\ step (html_tool system) w
    = (Return (OutText (tool_text (leaf_answer (html_converter system)
                 (llm (clock w) (html_converter system) [InputItem body])))),
       tick w)
  /\ (deterministic_model llm ->
      forall w2,
        fst (step (subject_tool system) w) = fst (step (subject_tool system) w2)
        /\ fst (step (html_tool system) w) = fst (step (html_tool system) w2)).
Proof.
  intros rat step.
  assert (Hs : forall w0, step (subject_tool system) w0
            = (Return (OutText (tool_text (leaf_answer (subject_writer system)
                 (llm (clock w0) (subject_writer system) [InputItem body])))),
               tick w0)).
  { intros w0. unfold step, rat. simpl. apply as_tool_invoke_leaf. split; reflexivity. }
  assert (Hh : forall w0, step (html_tool system) w0
            = (Return (OutText (tool_text (leaf_answer (html_converter system)
                 (llm (clock w0) (html_converter system) [InputItem body])))),
               tick w0)).
  { intros w0. unfold step, rat. simpl. apply as_tool_invoke_leaf. split; reflexivity. }
  split; [apply Hs|]. split; [apply Hh|].
  intros Hdet w2. rewrite !Hs, !Hh. simpl.
  rewrite (Hdet (clock w) (clock w2)), (Hdet (clock w) (clock w2) (html_converter system)).
  split; reflexivity.
Qed.

(** ** The fan-out *)

Section Gather.

Context {A : Type} (outcomes : list (Res A)).

Lemma all_filled_lookup (slots : list (option A)) (rs : list A) :
  all_filled slots = Some rs ->
  length rs = length slots /\ forall i r, rs !! i = Some r -> slots !! i = Some (Some r).
Proof.
  unfold all_filled. intros H. apply mapM_Some_1 in H. split.
  - symmetry. eapply Forall2_length, H.
  - intros i r Hr.
    destruct (Forall2_lookup_r _ _ _ _ _ H Hr) as (x & Hx & Hid).
    simpl in Hid. subst x. exact Hx.
Qed.

Lemma all_filled_pending (slots : list (option A)) :
  all_filled slots = None -> exists i, slots !! i = Some None.
Proof.
  unfold all_filled. intros H. apply mapM_None_1 in H.
  apply Exists_exists in H as (x & Hin & Hx). simpl in Hx. subst x.
  apply list_elem_of_lookup_1 in Hin. exact Hin.
Qed.

Lemma slots_agree_insert (slots : list (option A)) i r :
  slots_agree outcomes slots ->
  outcomes !! i = Some (Return r) ->
  slots_agree outcomes (<[i := Some r]> slots).
Proof.
  intros [Hlen Hs] Hi. split.
  - rewrite length_insert. exact Hlen.
  - intros j r' Hj. destruct (decide (i = j)) as [<-|Hne].
    + assert (Hlt : (i < length slots)%nat).
      { rewrite Hlen. eapply lookup_lt_Some, Hi. }
      rewrite list_lookup_insert_eq in Hj by exact Hlt.
      injection Hj as <-. exact Hi.
    + rewrite list_lookup_insert_ne in Hj by exact Hne. apply Hs, Hj.
Qed.

Lemma slots_agree_start : slots_agree outcomes (replicate (length outcomes) None).
Proof.
  split; [apply length_replicate|].
  intros i r Hi. apply lookup_replicate in Hi as [Hi _]. discriminate.
Qed.

(** What the gather hands back was put there by the branches: a list of
    results is what the branches returned, index by index; an exception was
    raised by a branch that has finished. *)
Lemma gather_after_sound (events : list nat) :
  forall (slots : list (option A)) res,
    slots_agree outcomes slots ->
    gather_after outcomes events slots = Some res ->
    match res with
    | Return rs => outcomes = map Return rs
    | Raise e => exists i, In i events /\ outcomes !! i = Some (Raise e)
    end.
Proof.
  assert (Hfilled : forall (slots : list (option A)) rs,
             slots_agree outcomes slots -> all_filled slots = Some rs ->
             outcomes = map Return rs).
  { intros slots rs [Hlen Hs] Hfill.
    apply all_filled_lookup in Hfill as [Hl Hget].
    apply list_eq. intros i.
    change (map Return rs) with (Return <$> rs). rewrite list_lookup_fmap.
    destruct (rs !! i) as [r|] eqn:Hr; simpl.
    - apply Hs, Hget, Hr.
    - apply lookup_ge_None. apply lookup_ge_None in Hr. lia. }
  induction events as [|i events IH]; intros slots res Hagree; simpl.
  - destruct (all_filled slots) as [rs|] eqn:Hfill; [|discriminate].
    intros [= <-]. eapply Hfilled; eassumption.
  - destruct (all_filled slots) as [rs|] eqn:Hfill.
    { intros [= <-]. eapply Hfilled; eassumption. }
    assert (Hskip : gather_after outcomes events slots = Some res ->
              match res with
              | Return rs => outcomes = map Return rs
              | Raise e => exists j, In j (i :: events) /\ outcomes !! j = Some (Raise e)
              end).
    { intros Hrun. specialize (IH slots res Hagree Hrun).
      destruct res as [rs|e]; [exact IH|].
      destruct IH as (j & Hin & Hj). exists j. split; [right; exact Hin | exact Hj]. }
    destruct (outcomes !! i) as [[r|e]|] eqn:Hi; [| |exact Hskip].
    + destruct (slots !! i) as [[r0|]|] eqn:Hslot; [exact Hskip | | exact Hskip].
      intros Hrest.
      specialize (IH _ res (slots_agree_insert slots i r Hagree Hi) Hrest).
      destruct res as [rs|e]; [exact IH|].
      destruct IH as (j & Hin & Hj). exists j. split; [right; exact Hin | exact Hj].
    + destruct (slots !! i) as [[r0|]|] eqn:Hslot; [exact Hskip | | exact Hskip].
      intros [= <-]. exists i. split; [left; reflexivity | exact Hi].
Qed.

(** Once every pending branch is among the events to come, the gather does
    hand something back. *)
Lemma gather_after_returns (events : list nat) :
  forall (slots : list (option A)),
    length slots = length outcomes ->
    (forall j, slots !! j = Some None -> In j events) ->
    exists res, gather_after outcomes events slots = Some res.
Proof.
  induction events as [|i events IH]; intros slots Hlen Hpend; simpl.
  - destruct (all_filled slots) as [rs|] eqn:Hfill; [eauto|].
    apply all_filled_pending in Hfill as [j Hj]. destruct (Hpend j Hj).
  - destruct (all_filled slots) as [rs|] eqn:Hfill; [eauto|].
    assert (Hskip : slots !! i <> Some None ->
              exists res, gather_after outcomes events slots = Some res).
    { intros Hi. apply IH; [exact Hlen|].
      intros j Hj. destruct (Hpend j Hj) as [<-|Hin]; [contradiction|exact Hin]. }
    destruct (outcomes !! i) as [[r|e]|] eqn:Hc.
    + destruct (slots !! i) as [[r0|]|] eqn:Hslot;
        [apply Hskip; discriminate | | apply Hskip; discriminate].
      apply IH; [rewrite length_insert; exact Hlen|].
      intros j Hj. destruct (decide (i = j)) as [<-|Hne].
      * rewrite list_lookup_insert_eq in Hj by (eapply lookup_lt_Some, Hslot).
        discriminate.
      * rewrite list_lookup_insert_ne in Hj by exact Hne.
        destruct (Hpend j Hj) as [Heq|Hin]; [contradiction|exact Hin].
    + destruct (slots !! i) as [[r0|]|] eqn:Hslot;
        [apply Hskip; discriminate | eauto | apply Hskip; discriminate].
    + apply Hskip. intros Hslot.
      apply lookup_lt_Some in Hslot. apply lookup_ge_None in Hc. lia.
Qed.

(** A list of results is handed back only when every branch is among the
    events that came. *)
Lemma gather_after_barrier (events : list nat) :
  forall done (slots : list (option A)) rs,
    (forall i r, slots !! i = Some (Some r) -> In i done) ->
    gather_after outcomes events slots = Some (Return rs) ->
    forall i, (i < length rs)%nat -> In i (done ++ events).
Proof.
  assert (Hfilled : forall done (slots : list (option A)) rs events0,
             (forall i r, slots !! i = Some (Some r) -> In i done) ->
             all_filled slots = Some rs ->
             forall i, (i < length rs)%nat -> In i (done ++ events0)).
  { intros done slots rs events0 Hdone Hfill i Hi.
    apply all_filled_lookup in Hfill as [_ Hget].
    apply lookup_lt_is_Some_2 in Hi as [r Hr].
    apply in_or_app. left. eapply Hdone, Hget, Hr. }
  induction events as [|i events IH]; intros done slots rs Hdone; simpl.
  - destruct (all_filled slots) as [rs0|] eqn:Hfill; [|discriminate].
    intros [= <-]. eapply Hfilled; eassumption.
  - destruct (all_filled slots) as [rs0|] eqn:Hfill.
    { intros [= <-]. eapply Hfilled; eassumption. }
    assert (Hskip : gather_after outcomes events slots = Some (Return rs) ->
              forall j, (j < length rs)%nat -> In j (done ++ i :: events)).
    { intros Hrun j Hj. specialize (IH done slots rs Hdone Hrun j Hj).
      apply in_app_or in IH as [H|H]; apply in_or_app; [left|right; right]; exact H. }
    destruct (outcomes !! i) as [[r|e]|] eqn:Hi; [| |exact Hskip].
    + destruct (slots !! i) as [[r0|]|] eqn:Hslot; [exact Hskip | | exact Hskip].
      intros Hrest j Hj.
      assert (Hdone' : forall k r', (<[i := Some r]> slots) !! k = Some (Some r') ->
                In k (done ++ [i])).
      { intros k r' Hk. apply in_or_app. destruct (decide (i = k)) as [<-|Hne].
        - right. left. reflexivity.
        - rewrite list_lookup_insert_ne in Hk by exact Hne. left. eapply Hdone, Hk. }
      specialize (IH (done ++ [i])%list _ rs Hdone' Hrest j Hj).
      rewrite <- app_assoc in IH. exact IH.
    + destruct (slots !! i) as [[r0|]|] eqn:Hslot; [exact Hskip | | exact Hskip].
      discriminate.
Qed.

End Gather.

Lemma map_Return_inj {A} (rs rs' : list A) :
  map Return rs = map Return rs' -> rs = rs'.
Proof.
  revert rs'. induction rs as [|r rs IH]; intros [|r' rs']; simpl; try discriminate.
  - reflexivity.
  - intros [= -> H]. f_equal. apply IH, H.
Qed.

Lemma start_all_length {A} (coros : list (M A)) :
  forall w, length (fst (start_all coros w)) = length coros.
Proof.
  induction coros as [|c coros IH]; intros w; simpl; [reflexivity|].
  destruct (c w) as [r w1]. specialize (IH w1).
  destruct (start_all coros w1) as [rs w2]. simpl in *. rewrite IH. reflexivity.
Qed.

(** [asyncio.gather] comes back under every schedule: with the world the
    started branches leave, and with what [gather_after] makes of what they
    hand back. *)
Lemma asyncio_gather_result {A} (schedule : list nat) (coros : list (M A))
    (w : World) :
  exists res,
    gather_after (fst (start_all coros w)) (schedule ++ seq 0 (length coros))
                 (replicate (length coros) None) = Some res
    /\ asyncio_gather schedule coros w = (res, snd (start_all coros w)).
Proof.
  pose proof (start_all_length coros w) as Hlen.
  unfold asyncio_gather. destruct (start_all coros w) as [outcomes w1]. simpl in *.
  destruct (gather_after_returns outcomes (schedule ++ seq 0 (length coros))
              (replicate (length coros) None)) as (res & Hres).
  - rewrite length_replicate. symmetry. exact Hlen.
  - intros j Hj. apply lookup_replicate in Hj as [_ Hlt].
    apply in_or_app. right. apply in_seq. lia.
  - exists res. split; [exact Hres|]. rewrite Hres. reflexivity.
Qed.

Section FanOut.

Context (TEST_MODE : bool) (llm : LLM) (provider : Provider).

(** Started in the world [w], the three generator runs are the model calls
    number [clock w], [1 + clock w] and [2 + clock w], and nothing else. *)
Lemma start_generators (message : string) (w : World) :
  start_all [Runner_run TEST_MODE llm provider (sales_agent1 system) message;
             Runner_run TEST_MODE llm provider (sales_agent2 system) message;
             Runner_run TEST_MODE llm provider (sales_agent3 system) message] w
  = (generator_outcomes llm message w, advance 3 w).
Proof.
  unfold start_all, Runner_run.
  rewrite (Runner_run_depth_leaf TEST_MODE llm provider 1 (sales_agent1 system))
    by (split; reflexivity).
  rewrite (Runner_run_depth_leaf TEST_MODE llm provider 1 (sales_agent2 system))
    by (split; reflexivity).
  rewrite (Runner_run_depth_leaf TEST_MODE llm provider 1 (sales_agent3 system))
    by (split; reflexivity).
  reflexivity.
Qed.

(** The fan-out under every schedule: the three runs are started, and the
    call hands back what the gather makes of them. *)
Lemma generate_parallel_emails_result (schedule : list nat) (message : string)
    (w : World) :
  exists res,
    gather_after (generator_outcomes llm message w) (schedule ++ seq 0 3)
                 (replicate 3 None) = Some res
    /\ generate_parallel_emails TEST_MODE llm provider schedule system message w
       = (res_map (map final_output) res, advance 3 w).
Proof.
  destruct (asyncio_gather_result schedule
              [Runner_run TEST_MODE llm provider (sales_agent1 system) message;
               Runner_run TEST_MODE llm provider (sales_agent2 system) message;
               Runner_run TEST_MODE llm provider (sales_agent3 system) message] w)
    as (res & Hres & Hrun).
  rewrite start_generators in Hres, Hrun. cbn [fst snd] in Hres, Hrun.
  change (length [Runner_run TEST_MODE llm provider (sales_agent1 system) message;
                  Runner_run TEST_MODE llm provider (sales_agent2 system) message;
                  Runner_run TEST_MODE llm provider (sales_agent3 system) message])
    with 3%nat in Hres.
  exists res. split; [exact Hres|].
  unfold generate_parallel_emails, bind. rewrite Hrun.
  destruct res; reflexivity.
Qed.

Lemma generator_outcome_lookup (message : string) (w : World) i (o : Res RunResult) :
  generator_outcomes llm message w !! i = Some o ->
  exists a,
    [sales_agent1 system; sales_agent2 system; sales_agent3 system] !! i = Some a
    /\ o = leaf_answer a (llm (i + clock w)%nat a [InputItem message]).
Proof.
  destruct i as [|[|[|i]]]; simpl; intros [= <-] || intros [=];
    eexists; split; reflexivity.
Qed.

Lemma leaf_answer_Return (a : Agent) (response : ModelResponse) (r : RunResult) :
  leaf_answer a response = Return r ->
  response = FinalOutput (final_output r).
Proof. destruct response; simpl; intros [= <-]; reflexivity. Qed.

(** When the model gives each generator a final output, the fan-out returns
    the three outputs in generator order, under every schedule. *)
Lemma generate_parallel_emails_returns (schedule : list nat) (message : string)
    (w : World) (o1 o2 o3 : string) :
  llm (0 + clock w)%nat (sales_agent1 system) [InputItem message] = FinalOutput o1 ->
  llm (1 + clock w)%nat (sales_agent2 system) [InputItem message] = FinalOutput o2 ->
  llm (2 + clock w)%nat (sales_agent3 system) [InputItem message] = FinalOutput o3 ->
  generate_parallel_emails TEST_MODE llm provider schedule system message w
  = (Return [o1; o2; o3], advance 3 w).
Proof.
  intros H1 H2 H3.
  destruct (generate_parallel_emails_result schedule message w) as (res & Hres & Hrun).
  rewrite Hrun. f_equal.
  apply gather_after_sound in Hres; [|apply (slots_agree_start (generator_outcomes llm message w))].
  assert (Hall : generator_outcomes llm message w
                 = map Return [mkRunResult o1 the_sales_agent1;
                               mkRunResult o2 the_sales_agent2;
                               mkRunResult o3 the_sales_agent3]).
  { unfold generator_outcomes. simpl in H1, H2, H3 |- *.
    rewrite H1, H2, H3. reflexivity. }
  destruct res as [rs|e].
  - rewrite Hall in Hres. apply map_Return_inj in Hres as <-. reflexivity.
  - exfalso. destruct Hres as (i & _ & Hi). rewrite Hall in Hi.
    destruct i as [|[|[|i]]]; discriminate Hi.
Qed.

(** When the fan-out returns, every generator was given a final output, and
    the outputs come back in generator order. *)
Lemma generate_parallel_emails_returned (schedule : list nat) (message : string)
    (w w' : World) (outs : list string) :
  generate_parallel_emails TEST_MODE llm provider schedule system message w
    = (Return outs, w') ->
  w' = advance 3 w
  /\ exists o1 o2 o3,
      outs = [o1; o2; o3]
      /\ llm (0 + clock w)%nat (sales_agent1 system) [InputItem message] = FinalOutput o1
      /\ llm (1 + clock w)%nat (sales_agent2 system) [InputItem message] = FinalOutput o2
      /\ llm (2 + clock w)%nat (sales_agent3 system) [InputItem message] = FinalOutput o3.
Proof.
  destruct (generate_parallel_emails_result schedule message w) as (res & Hres & Hrun).
  rewrite Hrun. intros [= Hout <-]. split; [reflexivity|].
  apply gather_after_sound in Hres; [|apply (slots_agree_start (generator_outcomes llm message w))].
  destruct res as [rs|e]; [|discriminate Hout]. simpl in Hout.
  injection Hout as <-.
  destruct rs as [|r1 [|r2 [|r3 [|r4 rs]]]]; try discriminate Hres.
  injection Hres as Hr1 Hr2 Hr3.
  exists (final_output r1), (final_output r2), (final_output r3).
  split; [reflexivity|].
  split; [|split]; eapply leaf_answer_Return; eassumption.
Qed.

(** When the fan-out raises, the run of one of the generators, made in this
    call, raised that exception. *)
Lemma generate_parallel_emails_raised (schedule : list nat) (message : string)
    (w w' : World) (e : PyException) :
  generate_parallel_emails TEST_MODE llm provider schedule system message w
    = (Raise e, w') ->
  w' = advance 3 w
  /\ exists i a,
      [sales_agent1 system; sales_agent2 system; sales_agent3 system] !! i = Some a
      /\ leaf_answer a (llm (i + clock w)%nat a [InputItem message]) = Raise e.
Proof.
  destruct (generate_parallel_emails_result schedule message w) as (res & Hres & Hrun).
  rewrite Hrun. intros [= Hout <-]. split; [reflexivity|].
  apply gather_after_sound in Hres; [|apply (slots_agree_start (generator_outcomes llm message w))].
  destruct res as [rs|e0]; [discriminate Hout|]. simpl in Hout. injection Hout as ->.
  destruct Hres as (i & _ & Hi).
  apply generator_outcome_lookup in Hi as (a & Ha & He).
  exists i, a. split; [exact Ha | symmetry; exact He].
Qed.

End FanOut.

(** C1.  Under every completion order, [generate_parallel_emails] starts the
    three generator runs, one model call each, and comes back.  When the
    model gives each generator a final output it returns exactly these three
    outputs, the output at each index being the one given to the generator
    at that index; it returns in no other case, and when it raises, one of
    the three runs of this call raised that exception.  The gather hands a
    list back only after all three branches have finished, and an exception
    only after a branch that raised has finished. *)
Theorem fan_out_is_ordered_join
    (TEST_MODE : bool) (llm : LLM) (provider : Provider)
    (schedule events : list nat) (message : string) (w : World) :
  let agents := [sales_agent1 system; sales_agent2 system; sales_agent3 system] in
  let answer i a := llm (i + clock w)%nat a [InputItem message] in
  let call := generate_parallel_emails TEST_MODE llm provider schedule system message w in
  snd call = advance 3 w
  /\ (exists res, fst call = res_map (map final_output) res
                  /\ gather_after (generator_outcomes llm message w)
                       (schedule ++ seq 0 3) (replicate 3 None) = Some res)
  /\ (forall o1 o2 o3,
        answer 0%nat (sales_agent1 system) = FinalOutput o1 ->
        answer 1%nat (sales_agent2 system) = FinalOutput o2 ->
        answer 2%nat (sales_agent3 system) = FinalOutput o3 ->
        fst call = Return [o1; o2; o3])
  /\ (forall outs, fst call = Return outs ->
        exists o1 o2 o3,
          outs = [o1; o2; o3]
          /\ answer 0%nat (sales_agent1 system) = FinalOutput o1
          /\ answer 1%nat (sales_agent2 system) = FinalOutput o2
          /\ answer 2%nat (sales_agent3 system) = FinalOutput o3)
  /\ (forall e, fst call = Raise e ->
        exists i a, agents !! i = Some a /\ leaf_answer a (answer i a) = Raise e)
  /\ (forall res,
        gather_after (generator_outcomes llm message w) events (replicate 3 None)
          = Some res ->
        match res with
        | Return rs => length rs = 3%nat /\ forall i, (i < 3)%nat -> In i events
        | Raise e =>
            exists i a, In i events /\ agents !! i = Some a
                        /\ leaf_answer a (answer i a) = Raise e
        end).
Proof.
  intros agents answer call.
  destruct (generate_parallel_emails_result TEST_MODE llm provider schedule message w)
    as (res & Hres & Hrun).
  fold call in Hrun.
  split; [rewrite Hrun; reflexivity|].
  split; [exists res; rewrite Hrun; split; [reflexivity | exact Hres]|].
  split; [|split; [|split]].
  - intros o1 o2 o3 H1 H2 H3. unfold call.
    rewrite (generate_parallel_emails_returns TEST_MODE llm provider schedule message w
               o1 o2 o3 H1 H2 H3). reflexivity.
  - intros outs Hout.
    destruct (generate_parallel_emails_returned TEST_MODE llm provider schedule message
                w (snd call) outs) as (_ & H).
    + rewrite <- Hout. apply surjective_pairing.
    + exact H.
  - intros e He.
    destruct (generate_parallel_emails_raised TEST_MODE llm provider schedule message
                w (snd call) e) as (_ & H).
    + rewrite <- He. apply surjective_pairing.
    + exact H.
  - intros res' Hev.
    pose proof (gather_after_sound (generator_outcomes llm message w) events _ res'
                  (slots_agree_start (generator_outcomes llm message w)) Hev) as Hs.
    destruct res' as [rs|e].
    + assert (Hlen : length rs = 3%nat).
      { apply (f_equal length) in Hs. rewrite length_map in Hs. symmetry. exact Hs. }
      split; [exact Hlen|]. intros i Hi.
      apply (gather_after_barrier (generator_outcomes llm message w) events []
               (replicate 3 None) rs).
      * intros k r Hk. apply lookup_replicate in Hk as [Hk _]. discriminate.
      * exact Hev.
      * rewrite Hlen. exact Hi.
    + destruct Hs as (i & Hin & Hi).
      apply generator_outcome_lookup in Hi as (a & Ha & He).
      exists i, a. split; [exact Hin|]. split; [exact Ha | symmetry; exact He].
Qed.

(** ** The script on concrete runs *)

Example init_without_keys :
  fst (__init__ false ∅ (mkWorld ∅ 0 []))
  = Raise (ValueError "❌ OPENAI_API_KEY environment variable is required").
Proof. reflexivity. Qed.

Example init_with_keys_from_dotenv :
  fst (__init__ false
         {[ "OPENAI_API_KEY" := "sk-test"; "SENDGRID_API_KEY" := "SG.test" ]}
         (mkWorld ∅ 0 []))
  = Return system.
Proof. vm_compute. reflexivity. Qed.

Example init_with_empty_key :
  fst (__init__ true {[ "OPENAI_API_KEY" := EmptyString ]} (mkWorld ∅ 0 []))
  = Raise (ValueError "❌ OPENAI_API_KEY environment variable is required").
Proof. vm_compute. reflexivity. Qed.

Example fan_out_scrambled :
  fst (generate_parallel_emails false naming_model accepting_provider [2; 0; 1]%nat
         system "Write a cold sales email" ready_world)
  = Return ["Draft by Professional Sales Agent";
            "Draft by Engaging Sales Agent";
            "Draft by Concise Sales Agent"].
Proof. vm_compute. reflexivity. Qed.

Example gather_waits_for_the_last_branch :
  gather_after (generator_outcomes naming_model "Hi" ready_world)
               [2; 0]%nat (replicate 3 None)
  = None.
Proof. vm_compute. reflexivity. Qed.

Example fan_out_with_a_failing_generator :
  let failing : LLM :=
    fun n _ _ => match n with
                 | 1%nat => ModelError (mkException "RateLimitError" "429")
                 | _ => FinalOutput "Draft"
                 end in
  generate_parallel_emails false failing accepting_provider [2; 0; 1]%nat system
    "Write a cold sales email" (mkWorld ∅ 0 [])
  = (Raise (mkException "RateLimitError" "429"), mkWorld ∅ 3 []).
Proof. vm_compute. reflexivity. Qed.

Example obedient_run_sends_once :
  let out := run_automated_sdr false obedient_model accepting_provider system
               "Send out a cold sales email addressed to Dear CEO from Alice"
               ready_world in
  fst out = Return (mkRunResult "The email has been sent." the_emailer_agent)
  /\ posts (snd out)
     = [mkMail (Some "SG.test") FROM_EMAIL TO_EMAIL "A quick question" "text/html"
               "<p>Draft two</p>"].
Proof. vm_compute. split; reflexivity. Qed.

Example send_with_rejecting_provider :
  fst (send_html_email false rejecting_provider "Subject" "<p>Hello</p>" ready_world)
  = Return [("status", PyStr "error"); ("status_code", PyInt 500)].
Proof. vm_compute. reflexivity. Qed.

(** ** Where the script does otherwise *)

(** C2: on a single candidate the selector hands back a text that is not
    the candidate. *)
Lemma selector_may_return_a_blend :
  fst (select_best_email false blending_model accepting_provider system
         ["Draft one"] ready_world)
  = Return "A blend of both drafts"
  /\ ~ In "A blend of both drafts" ["Draft one"].
Proof.
  split; [vm_compute; reflexivity|].
  intros [H|[]]. discriminate H.
Qed.

(** C3: on the empty sequence the selector returns a text and raises
    nothing. *)
Lemma selector_accepts_empty_sequence :
  fst (select_best_email false blending_model accepting_provider system []
         ready_world)
  = Return "A blend of both drafts".
Proof. vm_compute. reflexivity. Qed.

(** C4: one run of the orchestrator, which returns, and two requests posted
    to the provider. *)
Lemma manager_run_may_send_twice :
  let out := run_automated_sdr false resending_model accepting_provider system
               "Send out a cold sales email addressed to Dear CEO from Alice"
               ready_world in
  fst out = Return (mkRunResult "Email sent." the_emailer_agent)
  /\ length (posts (snd out)) = 2%nat.
Proof. vm_compute. split; reflexivity. Qed.

(** C5: the provider rejects the mail; one invocation of the chain posts
    twice and its result does not carry the error. *)
Lemma chain_may_retry_and_report_success :
  let out := Runner_run false retrying_model rejecting_provider
               (emailer_agent system) "Draft one" ready_world in
  fst out = Return (mkRunResult "The email was sent." the_emailer_agent)
  /\ length (posts (snd out)) = 2%nat.
Proof. vm_compute. split; reflexivity. Qed.

(** C6: in test mode a send reports success though the provider, which
    would answer 500, is never asked; outside test mode a send whose text
    begins like a key reports an error though the provider, which would
    answer 202, is never asked. *)
Lemma send_status_without_the_providers_answer :
  send_html_email true rejecting_provider "Subject" "<p>Hello</p>" ready_world
    = (Return [("status", PyStr "success"); ("status_code", PyInt 202)], ready_world)
  /\ rejecting_provider (length (posts ready_world))
       (html_mail ready_world "Subject" "<p>Hello</p>") = Responded 500
  /\ send_html_email false accepting_provider "Subject" "SG.abc.def" ready_world
     = (Return [("status", PyStr "error");
                ("message", PyStr (exn_str ApiKeyIncludedException))],
        ready_world)
  /\ accepting_provider (length (posts ready_world))
       (html_mail ready_world "Subject" "SG.abc.def") = Responded 202.
Proof.
  split; [reflexivity|]. split; [reflexivity|]. split; [|reflexivity].
  rewrite send_html_email_live. reflexivity.
Qed.

(** C8: two invocations of the subject step on the same body, two
    subjects; and the step is a model call, which moves the clock. *)
Lemma subject_step_may_differ :
  let rat := as_tool_invoke (Runner_run_depth false varying_model accepting_provider 0) in
  let step := invoke_tool false accepting_provider rat (subject_tool system)
                ["Draft one"] in
  fst (step ready_world) = Return (OutText "Quick question")
  /\ fst (step (snd (step ready_world))) = Return (OutText "SOC2, solved")
  /\ clock (snd (step ready_world)) = S (clock ready_world).
Proof. vm_compute. repeat split; reflexivity. Qed.

(** ** The statements at concrete inputs *)

(** C5 at a provider that answers 500. *)
Lemma send_error_is_returned_without_retry_witness :
  send_html_email false rejecting_provider "Subject" "<p>Hello</p>" ready_world
    = (Return (error_code_dict 500),
       posted ready_world (html_mail ready_world "Subject" "<p>Hello</p>"))
  /\ dict_get (error_code_dict 500) "status" = Some (PyStr "error")
  /\ api_key_shaped "<p>Hello</p>" = false.
Proof.
  assert (Hrun : send_html_email false rejecting_provider "Subject" "<p>Hello</p>"
                   ready_world
                 = (Return (error_code_dict 500),
                    posted ready_world (html_mail ready_world "Subject" "<p>Hello</p>")))
    by (rewrite send_html_email_live; reflexivity).
  assert (Hstatus : dict_get (error_code_dict 500) "status" = Some (PyStr "error"))
    by reflexivity.
  split; [exact Hrun|]. split; [exact Hstatus|].
  destruct (send_error_is_returned_without_retry false rejecting_provider
              "Subject" "<p>Hello</p>" _ _ _ Hrun Hstatus)
    as [_ [(Hshape & _)|(Hshape & _)]].
  - discriminate Hshape.
  - exact Hshape.
Defined.

(** C4 at a model that answers the manager's first call with a final
    output. *)
Lemma orchestrator_posts_witness :
  (forall n items, keeping_model n (sales_manager system) items <> HandoffTo "Email Manager")
  /\ no_posts ready_world
       (snd (run_automated_sdr false keeping_model accepting_provider system
               "Send out a cold sales email" ready_world)).
Proof.
  assert (H : forall n items,
             keeping_model n (sales_manager system) items <> HandoffTo "Email Manager")
    by (intros n items; discriminate).
  split; [exact H|].
  exact (proj2 (proj2 (orchestrator_posts false keeping_model accepting_provider
                         "Send out a cold sales email" ready_world)) H).
Defined.

(** C8 at a model that gives the same answer to every call. *)
Lemma formatter_steps_are_model_calls_witness :
  deterministic_model blending_model
  /\ fst (invoke_tool false accepting_provider
            (as_tool_invoke (Runner_run_depth false blending_model accepting_provider 0))
            (subject_tool system) ["Draft one"] ready_world)
     = fst (invoke_tool false accepting_provider
              (as_tool_invoke (Runner_run_depth false blending_model accepting_provider 0))
              (subject_tool system) ["Draft one"] (tick ready_world)).
Proof.
  assert (H : deterministic_model blending_model) by (intros n m a items; reflexivity).
  split; [exact H|].
  exact (proj1 (proj2 (proj2 (formatter_steps_are_model_calls false blending_model
                                accepting_provider 0 "Draft one" ready_world))
                  H (tick ready_world))).
Defined.

(** C7 at an empty environment and an empty [.env] file. *)
Lemma init_checks_configuration_witness :
  (exists key, In key (required_keys false) /\ (∅ ∪ environ (mkWorld ∅ 0 [])) !! key = None)
  /\ main false blending_model accepting_provider ∅ [] (mkWorld ∅ 0 [])
     = (Return tt, mkWorld (∅ ∪ ∅) 0 []).
Proof.
  assert (H : exists key, In key (required_keys false)
                          /\ (∅ ∪ environ (mkWorld ∅ 0 [])) !! key = None).
  { exists "OPENAI_API_KEY". split; [left; reflexivity | reflexivity]. }
  split; [exact H|].
  exact (proj2 (proj1 (init_checks_configuration false blending_model accepting_provider
                         ∅ [] (mkWorld ∅ 0 [])) H)).
Defined.

(** ** Further properties of the script *)

(** *** Invariants of the world across the monad and the gather *)

Lemma bind_invariant {A B} (P : World -> World -> Prop) (m : M A) (k : A -> M B) w :
  (forall w1 w2 w3, P w1 w2 -> P w2 w3 -> P w1 w3) ->
  P w (snd (m w)) ->
  (forall a w1, P w1 (snd (k a w1))) ->
  P w (snd (bind m k w)).
Proof.
  intros Htrans Hm Hk. unfold bind.
  destruct (m w) as [[a|e] w1]; simpl in *; [|exact Hm].
  eapply Htrans; [exact Hm | apply Hk].
Qed.

Lemma start_all_invariant {A} (P : World -> World -> Prop) (coros : list (M A)) :
  (forall w, P w w) ->
  (forall w1 w2 w3, P w1 w2 -> P w2 w3 -> P w1 w3) ->
  (forall i c w, coros !! i = Some c -> P w (snd (c w))) ->
  forall w, P w (snd (start_all coros w)).
Proof.
  intros Hrefl Htrans.
  induction coros as [|c coros IH]; intros Hc w; simpl; [apply Hrefl|].
  pose proof (Hc 0%nat c w eq_refl) as Hstep.
  destruct (c w) as [r w1]. simpl in Hstep.
  assert (Hrest : P w1 (snd (start_all coros w1))).
  { apply IH. intros i c0 w0 Hi. apply (Hc (S i) c0 w0 Hi). }
  destruct (start_all coros w1) as [rs w2]. simpl in *.
  eapply Htrans; eassumption.
Qed.

Lemma asyncio_gather_invariant {A} (P : World -> World -> Prop)
    (schedule : list nat) (coros : list (M A)) :
  (forall w, P w w) ->
  (forall w1 w2 w3, P w1 w2 -> P w2 w3 -> P w1 w3) ->
  (forall i c w, coros !! i = Some c -> P w (snd (c w))) ->
  forall w, P w (snd (asyncio_gather schedule coros w)).
Proof.
  intros Hrefl Htrans Hc w.
  destruct (asyncio_gather_result schedule coros w) as (res & _ & Hrun).
  rewrite Hrun. apply start_all_invariant; assumption.
Qed.

Lemma only_addressed_refl w : only_addressed_posts w w.
Proof. split; [reflexivity|]. exists []. rewrite app_nil_r. auto. Qed.

Lemma only_addressed_trans w1 w2 w3 :
  only_addressed_posts w1 w2 -> only_addressed_posts w2 w3 ->
  only_addressed_posts w1 w3.
Proof.
  intros (He1 & new1 & Hp1 & Hf1) (He2 & new2 & Hp2 & Hf2).
  split; [congruence|]. exists (new1 ++ new2)%list. split.
  - rewrite Hp2, Hp1, app_assoc. reflexivity.
  - apply Forall_app. split; [exact Hf1|]. rewrite <- He1. exact Hf2.
Qed.

Lemma no_posts_only_addressed w w' : no_posts w w' -> only_addressed_posts w w'.
Proof.
  intros [He Hp]. split; [exact He|]. exists []. rewrite app_nil_r. auto.
Qed.

Lemma posted_only_addressed w (m : Mail) :
  is_addressed (environ w !! "SENDGRID_API_KEY") m ->
  only_addressed_posts w (posted w m).
Proof.
  intros Hm. split; [reflexivity|]. exists [m]. split; [reflexivity|].
  constructor; [exact Hm | constructor].
Qed.

Lemma send_email_only_addressed (mode : bool) (provider : Provider) body w :
  only_addressed_posts w (snd (send_email mode provider body w)).
Proof.
  destruct mode.
  - rewrite send_email_test. apply only_addressed_refl.
  - rewrite send_email_live.
    destruct (api_key_shaped body); [apply only_addressed_refl|].
    apply posted_only_addressed. repeat split.
Qed.

Lemma send_html_email_only_addressed (mode : bool) (provider : Provider)
    subject html_body w :
  only_addressed_posts w (snd (send_html_email mode provider subject html_body w)).
Proof.
  destruct mode.
  - rewrite send_html_email_test. apply only_addressed_refl.
  - rewrite send_html_email_live.
    destruct (api_key_shaped html_body); [apply only_addressed_refl|].
    apply posted_only_addressed. repeat split.
Qed.

Lemma call_function_only_addressed (mode : bool) (provider : Provider) fn args w :
  only_addressed_posts w (snd (call_function mode provider fn args w)).
Proof.
  destruct fn; destruct args as [|a1 [|a2 [|a3 args]]]; simpl;
    try apply only_addressed_refl.
  - unfold bind. pose proof (send_email_only_addressed mode provider a1 w) as H.
    destruct (send_email mode provider a1 w) as [[d|e] w1]; exact H.
  - unfold bind.
    pose proof (send_html_email_only_addressed mode provider a1 a2 w) as H.
    destruct (send_html_email mode provider a1 a2 w) as [[d|e] w1]; exact H.
Qed.

(** X1.  [send_test_email] raises nothing.  In test mode it answers [True]
    and leaves the world alone.  Otherwise it posts exactly one request,
    the plain-text test mail, and answers [True] exactly when the provider
    answered 202: another code, or an exception of the provider, gives
    [False]. *)
Theorem send_test_email_outcome
    (TEST_MODE : bool) (provider : Provider) (self : SalesAgentSystem) (w : World) :
  exists ok w',
    send_test_email TEST_MODE provider self w = (Return ok, w')
    /\ (TEST_MODE = true -> ok = true /\ w' = w)
    /\ (TEST_MODE = false ->
          w' = posted w (test_mail w)
          /\ (ok = true <-> provider (length (posts w)) (test_mail w) = Responded 202)).
Proof.
  destruct TEST_MODE.
  - exists true, w. repeat split; discriminate.
  - unfold send_test_email, try_except, bind, os_environ_get.
    rewrite Content_checked.
    change (api_key_shaped "This is a test email from the AI Sales Agent System")
      with false.
    unfold sg_post; simpl.
    fold (test_mail w). fold (posted w (test_mail w)).
    destruct (provider (length (posts w)) (test_mail w)) as [code|e]; simpl.
    + destruct (Z.eqb_spec code 202) as [->|Hne]; simpl.
      * exists true, (posted w (test_mail w)). repeat split; discriminate.
      * exists false, (posted w (test_mail w)). repeat split; try discriminate.
        intros [= ->]. contradiction.
    + exists false, (posted w (test_mail w)). repeat split; discriminate.
Qed.

(** *** Runs of any agent *)

Section AnyRun.

Context (TEST_MODE : bool) (llm : LLM) (provider : Provider).

Lemma as_tool_invoke_invariant (P : World -> World -> Prop) run a input w :
  P w (snd (run a input w)) -> P w (snd (as_tool_invoke run a input w)).
Proof.
  intros H. unfold as_tool_invoke, try_except, bind.
  destruct (run a input w) as [[r|e] w1]; exact H.
Qed.

Lemma invoke_tool_only_addressed rat tool args w :
  (forall a input w0, only_addressed_posts w0 (snd (rat a input w0))) ->
  only_addressed_posts w (snd (invoke_tool TEST_MODE provider rat tool args w)).
Proof.
  intros Hrat. destruct tool as [tn fn|tn td a]; simpl.
  - apply call_function_only_addressed.
  - destruct args as [|input [|]]; try apply only_addressed_refl. apply Hrat.
Qed.

Lemma run_turns_only_addressed rat n a items w :
  (forall a0 input w0, only_addressed_posts w0 (snd (rat a0 input w0))) ->
  only_addressed_posts w (snd (run_turns TEST_MODE llm provider rat n a items w)).
Proof.
  intros Hrat.
  apply (run_turns_invariant TEST_MODE llm provider only_addressed_posts
           (fun _ => True)); auto.
  - apply only_addressed_refl.
  - apply only_addressed_trans.
  - intros w0. apply no_posts_only_addressed, no_posts_tick.
  - intros. apply invoke_tool_only_addressed, Hrat.
Qed.

Lemma Runner_run_depth_only_addressed depth :
  forall a input w,
    only_addressed_posts w
      (snd (Runner_run_depth TEST_MODE llm provider depth a input w)).
Proof.
  induction depth as [|depth IH]; intros a input w.
  - apply run_turns_only_addressed. intros. apply only_addressed_refl.
  - apply run_turns_only_addressed. intros.
    apply as_tool_invoke_invariant, IH.
Qed.

End AnyRun.

(** X2.  Whatever agent is run, with whatever tools and handoffs, under
    whatever model: the environment is kept, and every mail the run posts
    goes from [FROM_EMAIL] to [TO_EMAIL] with the key of the environment.
    The model chooses subject and body, never the addresses. *)
Theorem every_run_posts_to_the_fixed_addresses
    (TEST_MODE : bool) (llm : LLM) (provider : Provider)
    (depth : nat) (a : Agent) (input : string) (w : World) :
  only_addressed_posts w
    (snd (Runner_run_depth TEST_MODE llm provider depth a input w))
  /\ only_addressed_posts w (snd (Runner_run TEST_MODE llm provider a input w)).
Proof.
  split; apply Runner_run_depth_only_addressed.
Qed.

(** *** The basic workflow *)

Section BasicWorkflow.

Context (TEST_MODE : bool) (llm : LLM) (provider : Provider).

Lemma leaf_run_world (a : Agent) (input : string) (w : World) :
  is_leaf a -> snd (Runner_run TEST_MODE llm provider a input w) = tick w.
Proof.
  intros Hleaf. unfold Runner_run. rewrite Runner_run_depth_leaf by exact Hleaf.
  reflexivity.
Qed.

Lemma generator_branch_world (message : string) i c w :
  [Runner_run TEST_MODE llm provider (sales_agent1 system) message;
   Runner_run TEST_MODE llm provider (sales_agent2 system) message;
   Runner_run TEST_MODE llm provider (sales_agent3 system) message] !! i = Some c ->
  snd (c w) = tick w.
Proof.
  destruct i as [|[|[|i]]]; simpl; intros [= <-] || intros [=];
    apply leaf_run_world; split; reflexivity.
Qed.

Lemma generate_parallel_emails_no_posts schedule message w :
  no_posts w
    (snd (generate_parallel_emails TEST_MODE llm provider schedule system message w)).
Proof.
  unfold generate_parallel_emails.
  apply bind_invariant; [apply no_posts_trans | | intros; apply no_posts_refl].
  apply asyncio_gather_invariant; [apply no_posts_refl | apply no_posts_trans |].
  intros i c w0 Hc. rewrite (generator_branch_world message i c w0 Hc).
  apply no_posts_tick.
Qed.

Lemma select_best_email_no_posts emails w :
  no_posts w (snd (select_best_email TEST_MODE llm provider system emails w)).
Proof. rewrite select_best_email_result. apply no_posts_tick. Qed.

Lemma run_basic_workflow_no_posts schedule message w :
  no_posts w
    (snd (run_basic_workflow TEST_MODE llm provider schedule system message w)).
Proof.
  unfold run_basic_workflow.
  apply bind_invariant;
    [apply no_posts_trans | apply generate_parallel_emails_no_posts |].
  intros emails w1.
  apply bind_invariant;
    [apply no_posts_trans | apply select_best_email_no_posts |].
  intros; apply no_posts_refl.
Qed.

End BasicWorkflow.

(** X3.  The basic workflow sends nothing: for every model, provider,
    completion order and prompt, [generate_parallel_emails],
    [select_best_email] and [run_basic_workflow] leave the posted mail and
    the environment as they were, whether they return or raise. *)
Theorem basic_workflow_never_posts
    (TEST_MODE : bool) (llm : LLM) (provider : Provider)
    (schedule : list nat) (message : string) (emails : list string) (w : World) :
  no_posts w
    (snd (generate_parallel_emails TEST_MODE llm provider schedule system message w))
  /\ no_posts w (snd (select_best_email TEST_MODE llm provider system emails w))
  /\ no_posts w
       (snd (run_basic_workflow TEST_MODE llm provider schedule system message w)).
Proof.
  split; [apply generate_parallel_emails_no_posts|].
  split; [apply select_best_email_no_posts | apply run_basic_workflow_no_posts].
Qed.

(** *** Model calls of the fan-out *)

Lemma advance_zero w : advance 0 w = w.
Proof. destruct w; reflexivity. Qed.

Lemma advance_tick n w : advance n (tick w) = advance (S n) w.
Proof. unfold advance, tick; simpl. f_equal. lia. Qed.

Section FanOutCalls.

Context (TEST_MODE : bool) (llm : LLM) (provider : Provider).

Lemma generate_parallel_emails_calls schedule message w outs w' :
  generate_parallel_emails TEST_MODE llm provider schedule system message w
    = (Return outs, w') ->
  w' = advance 3 w.
Proof.
  intros H. eapply generate_parallel_emails_returned, H.
Qed.

End FanOutCalls.

(** X4.  When the basic workflow returns, it has made exactly four model
    calls and nothing else: three for the drafts and one for the picker.
    What it returns is the answer the model gave the picker, at the fourth
    call, for the prompt made of the three drafts in generator order. *)
Theorem basic_workflow_on_return
    (TEST_MODE : bool) (llm : LLM) (provider : Provider)
    (schedule : list nat) (message best : string) (w w' : World) :
  run_basic_workflow TEST_MODE llm provider schedule system message w
    = (Return best, w') ->
  w' = advance 4 w
  /\ exists outs,
      generate_parallel_emails TEST_MODE llm provider schedule system message w
        = (Return outs, advance 3 w)
      /\ length outs = 3%nat
      /\ llm (3 + clock w)%nat (sales_picker system)
             [InputItem (format_email_options outs)] = FinalOutput best.
Proof.
  unfold run_basic_workflow, bind.
  destruct (generate_parallel_emails TEST_MODE llm provider schedule system message w)
    as [[outs|e] w1] eqn:Hgen; [|discriminate].
  pose proof (generate_parallel_emails_calls _ _ _ _ _ _ _ _ Hgen) as ->.
  rewrite select_best_email_result.
  destruct (llm (clock (advance 3 w)) the_sales_picker
              [InputItem (format_email_options outs)]) as [| |text|] eqn:Hpick;
    simpl; try discriminate.
  intros [= <- <-]. split; [reflexivity|].
  exists outs. split; [reflexivity|]. split; [|exact Hpick].
  destruct (generate_parallel_emails_returned _ _ _ _ _ _ _ _ Hgen)
    as (_ & o1 & o2 & o3 & -> & _).
  reflexivity.
Qed.

(** X5.  When the model's answers do not depend on the calls made before,
    and it gives each generator a final output for the prompt, the fan-out
    returns these three outputs in generator order under every completion
    order, after exactly three model calls. *)
Theorem fan_out_does_not_depend_on_the_schedule
    (TEST_MODE : bool) (llm : LLM) (provider : Provider)
    (schedule : list nat) (message o1 o2 o3 : string) (w : World) :
  deterministic_model llm ->
  llm 0%nat (sales_agent1 system) [InputItem message] = FinalOutput o1 ->
  llm 0%nat (sales_agent2 system) [InputItem message] = FinalOutput o2 ->
  llm 0%nat (sales_agent3 system) [InputItem message] = FinalOutput o3 ->
  generate_parallel_emails TEST_MODE llm provider schedule system message w
  = (Return [o1; o2; o3], advance 3 w).
Proof.
  intros Hdet H1 H2 H3.
  apply generate_parallel_emails_returns.
  - rewrite (Hdet _ 0%nat). exact H1.
  - rewrite (Hdet _ 0%nat). exact H2.
  - rewrite (Hdet _ 0%nat). exact H3.
Qed.

(** X5 at a model that signs its answer with the name of the agent, and a
    schedule that ends the third branch first. *)
Lemma fan_out_does_not_depend_on_the_schedule_witness :
  deterministic_model naming_model
  /\ generate_parallel_emails false naming_model accepting_provider [2; 0; 1]%nat
       system "Write a cold sales email" ready_world
     = (Return ["Draft by Professional Sales Agent";
                "Draft by Engaging Sales Agent";
                "Draft by Concise Sales Agent"],
        advance 3 ready_world).
Proof.
  assert (H : deterministic_model naming_model) by (intros n m a items; reflexivity).
  split; [exact H|].
  exact (fan_out_does_not_depend_on_the_schedule false naming_model accepting_provider
           [2; 0; 1]%nat "Write a cold sales email" _ _ _ ready_world
           H eq_refl eq_refl eq_refl).
Defined.

(** X4 at the same model: the picker is asked fourth. *)
Lemma basic_workflow_on_return_witness :
  run_basic_workflow false naming_model accepting_provider [2; 0; 1]%nat system
    "Write a cold sales email" (mkWorld ∅ 0 [])
  = (Return "Draft by Sales Picker", advance 4 (mkWorld ∅ 0 []))
  /\ advance 4 (mkWorld ∅ 0 []) = advance 4 (mkWorld ∅ 0 []).
Proof.
  assert (H : run_basic_workflow false naming_model accepting_provider [2; 0; 1]%nat
                system "Write a cold sales email" (mkWorld ∅ 0 [])
              = (Return "Draft by Sales Picker", advance 4 (mkWorld ∅ 0 [])))
    by (vm_compute; reflexivity).
  split; [exact H|].
  exact (proj1 (basic_workflow_on_return false naming_model accepting_provider
                  [2; 0; 1]%nat "Write a cold sales email" _ _ _ H)).
Defined.

(** *** Who ends the orchestrator's run *)

Section LastAgent.

Context (TEST_MODE : bool) (llm : LLM) (provider : Provider) (depth : nat).

Let rat := as_tool_invoke (Runner_run_depth TEST_MODE llm provider depth).

Lemma emailer_run_last_agent n :
  forall items w r w',
    run_turns TEST_MODE llm provider rat n the_emailer_agent items w = (Return r, w') ->
    last_agent r = the_emailer_agent.
Proof.
  induction n as [|n IH]; intros items w r w'; [discriminate|].
  cbn [run_turns]. unfold bind, call_model, raise, ret.
  destruct (llm (clock w) the_emailer_agent items) as [name args|target|text|e];
    try discriminate.
  - destruct (find_tool name (agent_tools the_emailer_agent)) as [tool|];
      [|discriminate].
    destruct (invoke_tool TEST_MODE provider rat tool args _) as [[out|e] w1];
      [|discriminate].
    apply IH.
  - intros [= <- _]. reflexivity.
Qed.

Lemma manager_run_last_agent n :
  forall items w r w',
    run_turns TEST_MODE llm provider rat n the_sales_manager items w = (Return r, w') ->
    (last_agent r = the_sales_manager /\ no_posts w w')
    \/ last_agent r = the_emailer_agent.
Proof.
  induction n as [|n IH]; intros items w r w'; [discriminate|].
  cbn [run_turns]. unfold bind, call_model, raise, ret. fold (tick w).
  destruct (llm (clock w) the_sales_manager items) as [name args|target|text|e];
    try discriminate.
  - destruct (find_tool name (agent_tools the_sales_manager)) as [tool|] eqn:Hfind;
      [|discriminate].
    apply find_tool_In, manager_tools_leaf in Hfind as (tn & td & leaf & -> & Hleaf).
    pose proof (invoke_leaf_tool_no_posts TEST_MODE llm provider depth tn td leaf
                  args (tick w) Hleaf) as Hstep.
    fold rat in Hstep.
    destruct (invoke_tool TEST_MODE provider rat (AgentTool tn td leaf) args (tick w))
      as [[out|e] w1]; [|discriminate].
    simpl in Hstep. intros Hrest. apply IH in Hrest as [[Hlast Hno]|Hlast];
      [left|right; exact Hlast].
    split; [exact Hlast|].
    eapply no_posts_trans; [apply no_posts_tick|].
    eapply no_posts_trans; [exact Hstep | exact Hno].
  - destruct (find_handoff target (agent_handoffs the_sales_manager)) as [next|] eqn:Hfind;
      [|discriminate].
    apply find_handoff_manager in Hfind as [_ ->].
    intros Hrest. right. eapply emailer_run_last_agent, Hrest.
  - intros [= <- <-]. left. split; [reflexivity | apply no_posts_tick].
Qed.

End LastAgent.

(** X6.  A run of the orchestrator that returns ends in the hands of the
    manager or of the Email Manager; when it ends in the manager's, no mail
    was posted during the run. *)
Theorem orchestrator_sends_only_through_the_email_manager
    (TEST_MODE : bool) (llm : LLM) (provider : Provider)
    (message : string) (w w' : World) (r : RunResult) :
  run_automated_sdr TEST_MODE llm provider system message w = (Return r, w') ->
  (last_agent r = sales_manager system /\ no_posts w w')
  \/ last_agent r = emailer_agent system.
Proof.
  unfold run_automated_sdr, bind, ret.
  destruct (Runner_run TEST_MODE llm provider (sales_manager system) message w)
    as [[r0|e] w1] eqn:Hrun; [|discriminate].
  intros [= <- <-].
  exact (manager_run_last_agent TEST_MODE llm provider 0 _ _ _ _ _ Hrun).
Qed.

(** X6 at a model that answers the manager's first call with a final
    output. *)
Lemma orchestrator_sends_only_through_the_email_manager_witness :
  run_automated_sdr false keeping_model accepting_provider system
    "Send out a cold sales email" (mkWorld ∅ 0 [])
  = (Return (mkRunResult "Here is the best draft." the_sales_manager),
     tick (mkWorld ∅ 0 []))
  /\ ((last_agent (mkRunResult "Here is the best draft." the_sales_manager)
       = sales_manager system
       /\ no_posts (mkWorld ∅ 0 []) (tick (mkWorld ∅ 0 [])))
      \/ last_agent (mkRunResult "Here is the best draft." the_sales_manager)
         = emailer_agent system).
Proof.
  assert (H : run_automated_sdr false keeping_model accepting_provider system
                "Send out a cold sales email" (mkWorld ∅ 0 [])
              = (Return (mkRunResult "Here is the best draft." the_sales_manager),
                 tick (mkWorld ∅ 0 [])))
    by (vm_compute; reflexivity).
  split; [exact H|].
  exact (orchestrator_sends_only_through_the_email_manager false keeping_model
           accepting_provider "Send out a cold sales email" _ _ _ H).
Defined.

(** *** [main] *)

Lemma try_except_unit (body : M unit) (w : World) :
  try_except body (fun _ => ret tt) w = (Return tt, snd (body w)).
Proof.
  unfold try_except, ret. destruct (body w) as [[[]|e] w1]; reflexivity.
Qed.

Lemma send_test_email_live (provider : Provider) (self : SalesAgentSystem) (w : World) :
  send_test_email false provider self w
  = (Return (answered_202 (provider (length (posts w)) (test_mail w))),
     posted w (test_mail w)).
Proof.
  unfold send_test_email, try_except, bind, os_environ_get.
  rewrite Content_checked.
  change (api_key_shaped "This is a test email from the AI Sales Agent System")
    with false.
  unfold sg_post; simpl.
  fold (test_mail w). fold (posted w (test_mail w)).
  destruct (provider (length (posts w)) (test_mail w)) as [code|e]; simpl;
    [|reflexivity].
  unfold ret. destruct (code =? 202); reflexivity.
Qed.

(** [main] step by step: the configuration is loaded and checked, the test
    mail is posted unless in test mode, and the two workflows run when the
    test mail was accepted.  Whatever happens, [main] returns. *)
Lemma main_steps (TEST_MODE : bool) (llm : LLM) (provider : Provider)
    (dotenv : gmap string string) (schedule : list nat) (w : World) :
  let config := dotenv ∪ environ w in
  let loaded := mkWorld config (clock w) (posts w) in
  main TEST_MODE llm provider dotenv schedule w =
  (Return tt,
   if negb (config_complete TEST_MODE config) then loaded
   else if TEST_MODE then
     snd (demonstrations TEST_MODE llm provider schedule system loaded)
   else if answered_202 (provider (length (posts w)) (test_mail loaded)) then
     snd (demonstrations TEST_MODE llm provider schedule system
            (posted loaded (test_mail loaded)))
   else posted loaded (test_mail loaded)).
Proof.
  intros config loaded. unfold main. rewrite try_except_unit. f_equal.
  unfold bind at 1. rewrite init_result. fold config loaded.
  unfold config_complete.
  destruct (truthy (config !! "OPENAI_API_KEY")); cbn [negb andb orb];
    [|reflexivity].
  destruct TEST_MODE; cbn [negb andb orb].
  - reflexivity.
  - destruct (truthy (config !! "SENDGRID_API_KEY")); cbn [negb andb orb];
      [|reflexivity].
    unfold bind at 1. rewrite send_test_email_live.
    change (length (posts loaded)) with (length (posts w)).
    destruct (answered_202 (provider (length (posts w)) (test_mail loaded)));
      reflexivity.
Qed.

Lemma demonstrations_only_html (TEST_MODE : bool) (llm : LLM) (provider : Provider)
    (schedule : list nat) (w : World) :
  only_html_posts TEST_MODE w
    (snd (demonstrations TEST_MODE llm provider schedule system w)).
Proof.
  unfold demonstrations.
  apply bind_invariant; [apply only_html_posts_trans | |].
  - apply no_posts_only_html, run_basic_workflow_no_posts.
  - intros _ w1.
    apply bind_invariant; [apply only_html_posts_trans | |].
    + unfold run_automated_sdr.
      apply bind_invariant; [apply only_html_posts_trans | |].
      * apply system_run_only_html. left. reflexivity.
      * intros; apply no_posts_only_html, no_posts_refl.
    + intros; apply no_posts_only_html, no_posts_refl.
Qed.

(** X7.  In test mode [main] returns and posts nothing to the provider:
    whatever the configuration, the model and the completion order, the
    posted mail is what it was before. *)
Theorem main_in_test_mode_posts_nothing
    (llm : LLM) (provider : Provider)
    (dotenv : gmap string string) (schedule : list nat) (w : World) :
  fst (main true llm provider dotenv schedule w) = Return tt
  /\ posts (snd (main true llm provider dotenv schedule w)) = posts w.
Proof.
  rewrite main_steps. split; [reflexivity|]. simpl.
  destruct (negb (config_complete true (dotenv ∪ environ w))); [reflexivity|].
  destruct (demonstrations_only_html true llm provider schedule
              (mkWorld (dotenv ∪ environ w) (clock w) (posts w)))
    as (_ & new & Hp & _ & Hnil).
  rewrite Hp, (Hnil eq_refl), app_nil_r. reflexivity.
Qed.

(** X8.  Outside test mode, with both keys configured, a test mail the
    provider does not accept ends [main] there: one request was posted, the
    test mail, and the model was never called. *)
Theorem main_stops_when_the_test_mail_fails
    (llm : LLM) (provider : Provider)
    (dotenv : gmap string string) (schedule : list nat) (w : World) :
  let config := dotenv ∪ environ w in
  let loaded := mkWorld config (clock w) (posts w) in
  truthy (config !! "OPENAI_API_KEY") = true ->
  truthy (config !! "SENDGRID_API_KEY") = true ->
  provider (length (posts w)) (test_mail loaded) <> Responded 202 ->
  main false llm provider dotenv schedule w
  = (Return tt, mkWorld config (clock w) (posts w ++ [test_mail loaded])).
Proof.
  intros config loaded Ho Hs Hp. rewrite main_steps. fold config loaded.
  unfold config_complete. rewrite Ho, Hs. simpl.
  destruct (provider (length (posts w)) (test_mail loaded)) as [code|e]; simpl;
    [|reflexivity].
  destruct (Z.eqb_spec code 202) as [->|Hne]; [contradiction | reflexivity].
Qed.

(** X8 at a provider that answers 500. *)
Lemma main_stops_when_the_test_mail_fails_witness :
  main false obedient_model rejecting_provider ∅ [] ready_world
  = (Return tt,
     mkWorld (∅ ∪ environ ready_world) 0
             [test_mail (mkWorld (∅ ∪ environ ready_world) 0 [])]).
Proof.
  apply (main_stops_when_the_test_mail_fails obedient_model rejecting_provider
           ∅ [] ready_world).
  - vm_compute. reflexivity.
  - vm_compute. reflexivity.
  - discriminate.
Defined.

(** X9.  Outside test mode, whatever the model does, [main] returns, and
    every request it posts goes from [FROM_EMAIL] to [TO_EMAIL] with the
    configured key.  It posts nothing when the configuration is incomplete;
    otherwise the first request is the plain-text test mail and all that
    follow are HTML mail. *)
Theorem main_posts_the_test_mail_first
    (llm : LLM) (provider : Provider)
    (dotenv : gmap string string) (schedule : list nat) (w : World) :
  let config := dotenv ∪ environ w in
  let loaded := mkWorld config (clock w) (posts w) in
  let out := main false llm provider dotenv schedule w in
  fst out = Return tt
  /\ environ (snd out) = config
  /\ exists new,
      posts (snd out) = (posts w ++ new)%list
      /\ Forall (is_addressed (config !! "SENDGRID_API_KEY")) new
      /\ (config_complete false config = false -> new = [])
      /\ (config_complete false config = true ->
          exists htmls, new = test_mail loaded :: htmls /\ Forall is_html_mail htmls).
Proof.
  intros config loaded out. unfold out. rewrite main_steps. fold config loaded.
  split; [reflexivity|]. simpl.
  destruct (config_complete false config) eqn:Hc; simpl.
  2: { split; [reflexivity|]. exists []. rewrite app_nil_r.
       repeat split; auto. discriminate. }
  assert (Htest : is_addressed (config !! "SENDGRID_API_KEY") (test_mail loaded))
    by (repeat split).
  destruct (answered_202 (provider (length (posts w)) (test_mail loaded))).
  - set (w1 := posted loaded (test_mail loaded)).
    destruct (demonstrations_only_html false llm provider schedule w1)
      as (He & htmls & Hp & Hhtml & _).
    assert (Haddr : only_addressed_posts w1
                      (snd (demonstrations false llm provider schedule system w1))).
    { unfold demonstrations.
      apply bind_invariant; [apply only_addressed_trans | |].
      - apply no_posts_only_addressed, run_basic_workflow_no_posts.
      - intros _ w2.
        apply bind_invariant; [apply only_addressed_trans | |].
        + unfold run_automated_sdr.
          apply bind_invariant; [apply only_addressed_trans | |].
          * apply Runner_run_depth_only_addressed.
          * intros; apply only_addressed_refl.
        + intros; apply only_addressed_refl. }
    destruct Haddr as (_ & new2 & Hp2 & Haddr).
    assert (new2 = htmls) as -> by (rewrite Hp in Hp2; eapply app_inv_head, eq_sym, Hp2).
    split; [exact He|].
    exists (test_mail loaded :: htmls). split; [|split; [|split]].
    + rewrite Hp. unfold w1, posted; simpl. rewrite <- app_assoc. reflexivity.
    + constructor; [exact Htest | exact Haddr].
    + discriminate.
    + intros _. exists htmls. split; [reflexivity | exact Hhtml].
  - split; [reflexivity|]. exists [test_mail loaded]. split; [reflexivity|].
    split; [constructor; [exact Htest | constructor]|].
    split; [discriminate|]. intros _. exists []. split; [reflexivity | constructor].
Qed.

(** *** The picker's prompt *)

Lemma string_append_assoc (a b c : string) : (a +:+ b) +:+ c = a +:+ (b +:+ c).
Proof.
  induction a as [|ch a IH]; [reflexivity|].
  change (String ch ((a +:+ b) +:+ c) = String ch (a +:+ (b +:+ c))).
  f_equal. exact IH.
Qed.

Lemma concat_cons_more (sep x y : string) (l : list string) :
  String.concat sep (x :: y :: l) = x +:+ sep +:+ String.concat sep (y :: l).
Proof. reflexivity. Qed.

Lemma concat_splits_at_separator (sep a b : string) (before after : list string) :
  String.concat sep (before ++ [a +:+ sep +:+ b] ++ after)%list
  = String.concat sep (before ++ [a; b] ++ after)%list.
Proof.
  induction before as [|x before IH].
  - cbn [List.app]. rewrite concat_cons_more.
    destruct after as [|c after].
    + reflexivity.
    + rewrite !concat_cons_more, !string_append_assoc. reflexivity.
  - destruct before as [|y before].
    + cbn [List.app] in *.
      rewrite (concat_cons_more sep x (a +:+ sep +:+ b)), (concat_cons_more sep x a).
      rewrite IH. reflexivity.
    + cbn [List.app] in *. rewrite !concat_cons_more. rewrite IH. reflexivity.
Qed.

(** X10.  The prompt [select_best_email] builds does not keep the candidates
    apart: a candidate whose text contains the separator gives the picker
    the same prompt as the two candidates it splits into, wherever it
    stands in the list. *)
Theorem picker_prompt_merges_candidates
    (a b : string) (before after : list string) :
  format_email_options (before ++ [a +:+ email_separator +:+ b] ++ after)%list
  = format_email_options (before ++ [a; b] ++ after)%list.
Proof.
  unfold format_email_options. f_equal.
  apply (concat_splits_at_separator email_separator).
Qed.

(** *** Failures of the basic workflow *)

(** X11.  The basic workflow raises only what a model-backed run raised.
    Either a generator run raised the exception, and the picker was never
    asked; or the three drafts came back, and the picker's run, the fourth
    model call, raised it. *)
Theorem basic_workflow_on_raise
    (TEST_MODE : bool) (llm : LLM) (provider : Provider)
    (schedule : list nat) (message : string) (e : PyException) (w w' : World) :
  run_basic_workflow TEST_MODE llm provider schedule system message w
    = (Raise e, w') ->
  (generate_parallel_emails TEST_MODE llm provider schedule system message w
     = (Raise e, w')
   /\ exists a n,
       In a [sales_agent1 system; sales_agent2 system; sales_agent3 system]
       /\ leaf_answer a (llm n a [InputItem message]) = Raise e)
  \/ (exists outs,
       generate_parallel_emails TEST_MODE llm provider schedule system message w
         = (Return outs, advance 3 w)
       /\ leaf_answer (sales_picker system)
            (llm (3 + clock w)%nat (sales_picker system)
                 [InputItem (format_email_options outs)]) = Raise e
       /\ w' = advance 4 w).
Proof.
  unfold run_basic_workflow. unfold bind at 1.
  destruct (generate_parallel_emails TEST_MODE llm provider schedule system message w)
    as [[outs|e0] w1] eqn:Hgen.
  - pose proof (generate_parallel_emails_calls _ _ _ _ _ _ _ _ Hgen) as ->.
    unfold bind. rewrite select_best_email_result.
    destruct (leaf_answer the_sales_picker
                (llm (clock (advance 3 w)) the_sales_picker
                     [InputItem (format_email_options outs)])) as [r|e1] eqn:Hpick;
      simpl; [discriminate|].
    intros [= <- <-]. right. exists outs.
    split; [reflexivity|]. split; [exact Hpick | reflexivity].
  - intros [= <- <-]. left. split; [reflexivity|].
    destruct (generate_parallel_emails_raised _ _ _ _ _ _ _ _ Hgen)
      as (_ & i & a & Ha & He).
    exists a, (i + clock w)%nat. split; [|exact He].
    apply list_elem_of_In. eapply list_elem_of_lookup_2, Ha.
Qed.

(** X11 at a model whose provider fails on every call. *)
Lemma basic_workflow_on_raise_witness :
  let failing : LLM := fun _ _ _ => ModelError (mkException "RateLimitError" "429") in
  run_basic_workflow false failing accepting_provider [] system "Hi" (mkWorld ∅ 0 [])
    = (Raise (mkException "RateLimitError" "429"), advance 3 (mkWorld ∅ 0 []))
  /\ exists a n,
      In a [sales_agent1 system; sales_agent2 system; sales_agent3 system]
      /\ leaf_answer a (failing n a [InputItem "Hi"])
         = Raise (mkException "RateLimitError" "429").
Proof.
  intros failing.
  assert (H : run_basic_workflow false failing accepting_provider [] system "Hi"
                (mkWorld ∅ 0 [])
              = (Raise (mkException "RateLimitError" "429"),
                 advance 3 (mkWorld ∅ 0 [])))
    by (vm_compute; reflexivity).
  split; [exact H|].
  destruct (basic_workflow_on_raise false failing accepting_provider [] "Hi" _ _ _ H)
    as [[_ Hgen]|(outs & Hgen & _)].
  - exact Hgen.
  - exfalso. revert Hgen. vm_compute. discriminate.
Defined.
